(** * Hilla: AutoGrid data provider, header filters, filter DTOs and parser glue

  A shallow embedding of the parts of the repository the specification
  speaks about:

  - [packages/ts/react-crud/src/crud.ts] and [autogrid.tsx]
    (the [ListService] interface, [createDataProvider],
    [setHeaderPropertyFilter] and the effects of [AutoGrid]);
  - [packages/java/endpoint/.../crud/filter/Filter.java] and
    [AndFilter.java] (the Jackson sub-type table);
  - [packages/java/parser-jvm-plugin-backbone/.../BackbonePlugin.java];
  - [packages/java/parser-jvm-core/.../models/TypeArgumentModel.java];
  - [packages/java/endpoint/.../startup/EndpointsValidatorTest.java].

  JavaScript numbers that the grid uses as page indexes and sizes are
  modelled as [Z]; the arithmetic of the data provider is exact on them as
  long as the values stay below 2^53, which is the range a grid can
  address; [AutoGridJS] computes the reported size with the rounding of
  doubles, and [ReportedSizeFacts] relates the two.  JavaScript objects that are mutated in place and shared
  (the [children] array of the header filter) live in an explicit store. *)

From Stdlib Require Import ZArith Lia.
From stdpp Require Import base strings list gmap.

Set Warnings "-register-all".

Local Open Scope Z_scope.

(** ** Generated mapped types ([types/dev/hilla/mappedtypes],
     [types/org/springframework/data/domain/Sort]) *)

Module Mapped.

(** [Direction.ASC] and [Direction.DESC]. *)
Inductive Direction := ASC | DESC.

(** The object literal [{ property, direction, ignoreCase }] built by the
    data provider. *)
Record Order := {
  property : string;
  direction : Direction;
  ignoreCase : bool
}.

(** [const sort: Sort = { orders: ... }]. *)
Record Sort := { orders : list Order }.

(** [const req = { pageNumber, pageSize, sort }]. *)
Record Pageable := {
  pageNumber : Z;
  pageSize : Z;
  sort : Sort
}.

#[global] Instance Direction_eq_dec : EqDecision Direction.
Proof. solve_decision. Defined.

#[global] Instance Order_eq_dec : EqDecision Order.
Proof. solve_decision. Defined.

End Mapped.

(** ** The parts of Vaadin Grid's API the data provider reads *)

Module Grid.

(** A sorter of the grid: [{ path, direction }] where [direction] is
    ['asc'], ['desc'] or [null]; [None] stands for [null]/[undefined]. *)
Record GridSorterDefinition := {
  path : string;
  direction : option string
}.

(** [GridDataProviderParams]: only the fields the provider reads. *)
Record GridDataProviderParams := {
  page : Z;
  pageSize : Z;
  sortOrders : list GridSorterDefinition
}.

End Grid.

(** ** Filters ([types/dev/hilla/crud/filter]) *)

Section Filters.

(** [PropertyStringFilter/Matcher] is an enum generated from Java; its
    declaration is not part of the sources, so it is a parameter. *)
Variable Matcher : Type.

(** [{ '@type': 'propertyString', propertyId, matcher, filterValue }]. *)
Record PropertyStringFilter := {
  propertyId : string;
  matcher : Matcher;
  filterValue : string
}.

(** [FilterUnion]: the tagged union over the ['@type'] discriminator, one
    constructor per sub-type listed in [Filter.java]. *)
Inductive FilterUnion :=
| OrFilter (children : list FilterUnion)
| AndFilter (children : list FilterUnion)
| PropertyString (f : PropertyStringFilter).

End Filters.

Arguments propertyId {Matcher} _.
Arguments matcher {Matcher} _.
Arguments filterValue {Matcher} _.
Arguments OrFilter {Matcher} _.
Arguments AndFilter {Matcher} _.
Arguments PropertyString {Matcher} _.

(** ** [autogrid.tsx] *)

Module AutoGrid.

(** *** [createDataProvider] *)

Section DataProvider.

Variable TItem : Type.
Variable Matcher : Type.

Abbreviation Filter := (FilterUnion Matcher).

(** The outcome of awaiting a promise. *)
Inductive Promise (A : Type) :=
| Resolved (a : A)
| Rejected.

(** [ListService<T>.list(request, filter): Promise<T[]>] of [crud.ts]. *)
Definition ListService :=
  Mapped.Pageable → option Filter → Promise (list TItem).

(** What the data provider does to the service and to the grid, in program
    order. *)
Inductive Event :=
| ServiceList (req : Mapped.Pageable) (filter : option Filter)
| Callback (items : list TItem) (size : option Z)
| SetTimeout_recalculateColumnWidths.

(** [.filter((order) => order.direction != null)] *)
Definition hasDirection (order : Grid.GridSorterDefinition) : Prop :=
  Grid.direction order ≠ None.

#[global] Instance hasDirection_dec order : Decision (hasDirection order).
Proof. unfold hasDirection. apply _. Defined.

(** [.map((order) => ({ property: order.path, direction: ..., ignoreCase: false }))] *)
Definition toOrder (order : Grid.GridSorterDefinition) : Mapped.Order :=
  {| Mapped.property := Grid.path order;
     Mapped.direction :=
       if decide (Grid.direction order = Some "asc"%string)
       then Mapped.ASC else Mapped.DESC;
     Mapped.ignoreCase := false |}.

(** The size computed after [await service.list(...)]; [cacheSize] is
    [grid._cache.size] read at that moment. *)
Definition reportedSize (cacheSize : option Z) (pageNumber pageSize : Z)
    (items : list TItem) : option Z :=
  if Z.of_nat (length items) =? pageSize then
    let size := (pageNumber + 1) * pageSize + 1 in
    match cacheSize with
    | Some cacheSize => if size <? cacheSize then None else Some size
    | None => Some size
    end
  else Some (pageNumber * pageSize + Z.of_nat (length items)).

(** The async function returned by [createDataProvider(grid, service,
    filter)].  [current] is [filter.current] at the time of the call and
    [first] the captured flag; the result is the new value of [first] and
    the events performed.  A rejected [service.list] ends the function at
    the [await]. *)
Definition dataProvider (service : ListService) (cacheSize : option Z)
    (current : option Filter) (first : bool)
    (params : Grid.GridDataProviderParams) : bool * list Event :=
  let sort :=
    {| Mapped.orders := toOrder <$> filter hasDirection (Grid.sortOrders params) |} in
  let pageNumber := Grid.page params in
  let pageSize := Grid.pageSize params in
  let req :=
    {| Mapped.pageNumber := pageNumber;
       Mapped.pageSize := pageSize;
       Mapped.sort := sort |} in
  match service req current with
  | Rejected _ => (first, [ServiceList req current])
  | Resolved _ items =>
      let size := reportedSize cacheSize pageNumber pageSize items in
      (false,
       [ServiceList req current; Callback items size]
         ++ (if first then [SetTimeout_recalculateColumnWidths] else []))
  end.

(** The [req] of the provider for given [params]. *)
Definition requestOf (params : Grid.GridDataProviderParams) : Mapped.Pageable :=
  {| Mapped.pageNumber := Grid.page params;
     Mapped.pageSize := Grid.pageSize params;
     Mapped.sort :=
       {| Mapped.orders := toOrder <$> filter hasDirection (Grid.sortOrders params) |} |}.

(** Projections of a trace. *)
Definition serviceCalls (evs : list Event)
    : list (Mapped.Pageable * option Filter) :=
  omap (λ e, match e with ServiceList r f => Some (r, f) | _ => None end) evs.

Definition callbacks (evs : list Event) : list (list TItem * option Z) :=
  omap (λ e, match e with Callback i s => Some (i, s) | _ => None end) evs.

(** The sort of a request in the specification's words: the sorters that
    have a direction, in their order, each turned into an order on its
    path. *)
Inductive sortSpec : list Grid.GridSorterDefinition → list Mapped.Order → Prop :=
| sortSpec_nil : sortSpec [] []
| sortSpec_null o os rs :
    Grid.direction o = None → sortSpec os rs → sortSpec (o :: os) rs
| sortSpec_asc o os rs :
    Grid.direction o = Some "asc"%string → sortSpec os rs →
    sortSpec (o :: os) (Mapped.Build_Order (Grid.path o) Mapped.ASC false :: rs)
| sortSpec_other o d os rs :
    Grid.direction o = Some d → d ≠ "asc"%string → sortSpec os rs →
    sortSpec (o :: os) (Mapped.Build_Order (Grid.path o) Mapped.DESC false :: rs).

End DataProvider.

Arguments Resolved {A} _.
Arguments Rejected {A}.
Arguments ServiceList {TItem Matcher} _ _.
Arguments Callback {TItem Matcher} _ _.
Arguments SetTimeout_recalculateColumnWidths {TItem Matcher}.
Arguments reportedSize {TItem} _ _ _ _.
Arguments dataProvider {TItem Matcher} _ _ _ _ _.
Arguments serviceCalls {TItem Matcher} _.
Arguments callbacks {TItem Matcher} _.

(** *** The JavaScript objects of the component *)

Section Component.

Variable Matcher : Type.

Abbreviation Filter := (FilterUnion Matcher).

(** Calls of the effects on the grid element. *)
Inductive GridCall := ClearCache.

(** An object [{ '@type': 'and', children }] held in [internalFilter]:
    [objectId] is its identity (what [Object.is] compares), [children] the
    address of its array in the store.  The object itself is never
    written after its creation, only the array is. *)
Record AndFilterObject := {
  objectId : nat;
  children : nat
}.

(** The [experimentalFilter] object of the parent, with its identity. *)
Record ExternalFilter := {
  externalId : nat;
  externalValue : Filter
}.

(** What [dataProviderFilter.current] can point to. *)
Inductive FilterRef :=
| HeaderFilters (o : AndFilterObject)
| Experimental (e : ExternalFilter).

(** The props the effects depend on; an absent prop is [None]. *)
Record Props := {
  experimentalFilter : option ExternalFilter;
  noHeaderFilters : option bool;
  refreshTrigger : option Z
}.

(** The hooks of one mounted [AutoGrid] and the store they point into. *)
Record State := {
  arrays : gmap nat (list Filter);
  nextId : nat;
  internalFilter : AndFilterObject;
  queuedInternalFilter : option AndFilterObject;
  dataProviderFilter : option FilterRef;
  ref : bool;
  rendered : option Props
}.

(** [useState<AndFilter>({ '@type': 'and', children: [] })],
    [useRef(null)], [useRef(undefined)], before the first render. *)
Definition initial : State :=
  {| arrays := {[ 0%nat := [] ]};
     nextId := 2;
     internalFilter := {| objectId := 1; children := 0 |};
     queuedInternalFilter := None;
     dataProviderFilter := None;
     ref := false;
     rendered := None |}.

(** *** [setHeaderPropertyFilter] *)

(** [Array.prototype.findIndex]: the first index, or [-1]. *)
Fixpoint findIndexFrom {A} (p : A → bool) (l : list A) (i : Z) : Z :=
  match l with
  | [] => -1
  | x :: l => if p x then i else findIndexFrom p l (i + 1)
  end.

Definition findIndex {A} (p : A → bool) (l : list A) : Z :=
  findIndexFrom p l 0.

(** [(f as PropertyStringFilter).propertyId === id]: the property is
    [undefined] on the other members of the union. *)
Definition hasPropertyId (id : string) (f : Filter) : bool :=
  match f with
  | PropertyString g => bool_decide (propertyId g = id)
  | _ => false
  end.

(** The array [internalFilter.children] of the latest render. *)
Definition headerChildren (st : State) : list Filter :=
  arrays st !!! children (internalFilter st).

(** An in-place write of the array [internalFilter.children]. *)
Definition writeChildren (cs : list Filter) (st : State) : State :=
  {| arrays := <[children (internalFilter st) := cs]> (arrays st);
     nextId := nextId st;
     internalFilter := internalFilter st;
     queuedInternalFilter := queuedInternalFilter st;
     dataProviderFilter := dataProviderFilter st;
     ref := ref st;
     rendered := rendered st |}.

(** [setInternalFilter(o)]: the state seen by the next render. *)
Definition setInternalFilter (o : AndFilterObject) (st : State) : State :=
  {| arrays := arrays st;
     nextId := nextId st;
     internalFilter := internalFilter st;
     queuedInternalFilter := Some o;
     dataProviderFilter := dataProviderFilter st;
     ref := ref st;
     rendered := rendered st |}.

(** [{ ...internalFilter }]: a new object sharing the array. *)
Definition spreadInternalFilter (st : State) : AndFilterObject * State :=
  ({| objectId := nextId st; children := children (internalFilter st) |},
   {| arrays := arrays st;
      nextId := S (nextId st);
      internalFilter := internalFilter st;
      queuedInternalFilter := queuedInternalFilter st;
      dataProviderFilter := dataProviderFilter st;
      ref := ref st;
      rendered := rendered st |}).

(** [{ '@type': 'and', children: [] }]: a new object with a new array. *)
Definition newAndFilter (st : State) : AndFilterObject * State :=
  ({| objectId := S (nextId st); children := nextId st |},
   {| arrays := <[nextId st := []]> (arrays st);
      nextId := S (S (nextId st));
      internalFilter := internalFilter st;
      queuedInternalFilter := queuedInternalFilter st;
      dataProviderFilter := dataProviderFilter st;
      ref := ref st;
      rendered := rendered st |}).

(** [if (changed) setInternalFilter({ ...internalFilter })]. *)
Definition changed (st : State) : State :=
  let '(o, st) := spreadInternalFilter st in setInternalFilter o st.

(** The setter handed to the columns by the latest render; it closes over
    the [internalFilter] of that render, writes its array in place and,
    when something [changed], queues a copy of the object. *)
Definition setHeaderPropertyFilter
    (propertyFilter : PropertyStringFilter Matcher) (st : State) : State :=
  let filterIndex :=
    findIndex (hasPropertyId (propertyId propertyFilter)) (headerChildren st) in
  if decide (filterValue propertyFilter = ""%string) then
    if 0 <=? filterIndex then
      changed (writeChildren (delete (Z.to_nat filterIndex) (headerChildren st)) st)
    else st
  else if 0 <=? filterIndex then
    changed (writeChildren
      (<[Z.to_nat filterIndex := PropertyString propertyFilter]> (headerChildren st)) st)
  else
    changed (writeChildren (headerChildren st ++ [PropertyString propertyFilter]) st).

(** *** The effects of [AutoGrid] *)

(** [Object.is] on the values found in dependency arrays. *)
Definition sameExternal (a b : option ExternalFilter) : bool :=
  match a, b with
  | None, None => true
  | Some a, Some b => bool_decide (externalId a = externalId b)
  | _, _ => false
  end.

Definition sameObject (a b : AndFilterObject) : bool :=
  bool_decide (objectId a = objectId b).

(** [refreshTrigger = 0] in the parameter list. *)
Definition effectiveRefreshTrigger (props : Props) : Z :=
  default 0 (refreshTrigger props).

(** [useEffect(..., [noHeaderFilters])]: does the effect run in a render
    with [props], the previous render having had [prev]? *)
Definition noHeaderFiltersChanged (prev : option Props) (props : Props) : bool :=
  match prev with
  | None => true
  | Some prev => negb (bool_decide (noHeaderFilters prev = noHeaderFilters props))
  end.

(** [useEffect(..., [experimentalFilter, internalFilter, refreshTrigger])]:
    [old] and [new] are the values of [internalFilter] in the previous and
    in this render. *)
Definition filterDepsChanged (prev : option Props) (old : AndFilterObject)
    (props : Props) (new : AndFilterObject) : bool :=
  match prev with
  | None => true
  | Some prev =>
      negb (sameExternal (experimentalFilter prev) (experimentalFilter props))
      || negb (sameObject old new)
      || negb (effectiveRefreshTrigger prev =? effectiveRefreshTrigger props)
  end.

(** [if (noHeaderFilters) setInternalFilter({ '@type': 'and', children: [] })] *)
Definition noHeaderFiltersEffect (props : Props) (st : State) : State :=
  match noHeaderFilters props with
  | Some true => let '(o, st) := newAndFilter st in setInternalFilter o st
  | _ => st
  end.

(** [experimentalFilter ?? internalFilter] *)
Definition effectiveFilter (props : Props) (st : State) : FilterRef :=
  match experimentalFilter props with
  | Some e => Experimental e
  | None => HeaderFilters (internalFilter st)
  end.

(** [if (grid) { dataProviderFilter.current = ...; grid.clearCache(); }] *)
Definition filterEffect (props : Props) (st : State) : State * list GridCall :=
  if ref st then
    ({| arrays := arrays st;
        nextId := nextId st;
        internalFilter := internalFilter st;
        queuedInternalFilter := queuedInternalFilter st;
        dataProviderFilter := Some (effectiveFilter props st);
        ref := ref st;
        rendered := rendered st |},
     [ClearCache])
  else (st, []).

(** One render of [AutoGrid] with [props] followed by its effects.
    [useState] hands out the latest queued state; committing attaches the
    grid element to [ref] when React [mounted] it; then the effects whose
    dependencies changed run in the order they are declared.  (The effect
    on [model, service] installs the data provider and touches none of
    this state.) *)
Definition render (mounted : bool) (props : Props) (st : State)
    : State * list GridCall :=
  let old := internalFilter st in
  let new := default old (queuedInternalFilter st) in
  let prev := rendered st in
  let st :=
    {| arrays := arrays st;
       nextId := nextId st;
       internalFilter := new;
       queuedInternalFilter := None;
       dataProviderFilter := dataProviderFilter st;
       ref := mounted;
       rendered := Some props |} in
  let st := if noHeaderFiltersChanged prev props
            then noHeaderFiltersEffect props st else st in
  if filterDepsChanged prev old props new
  then filterEffect props st else (st, []).

(** The value [service.list] gets for [filter.current]: the object graph
    the reference points to at the time of the call. *)
Definition currentFilter (st : State) : option Filter :=
  match dataProviderFilter st with
  | None => None
  | Some (Experimental e) => Some (externalValue e)
  | Some (HeaderFilters o) => Some (AndFilter (arrays st !!! children o))
  end.

(** The states of a component whose grid element is attached at every
    commit, and whose header filters call the setter of the latest
    render. *)
Inductive reachable : State → Prop :=
| reachable_initial : reachable initial
| reachable_render props st :
    reachable st → reachable (render true props st).1
| reachable_setHeaderPropertyFilter propertyFilter st :
    reachable st → reachable (setHeaderPropertyFilter propertyFilter st).

(** The invariant of a [children] array: only property filters, one per
    property at most, none with an empty value. *)
Definition propertyIds (cs : list Filter) : list string :=
  omap (λ f, match f with PropertyString g => Some (propertyId g) | _ => None end) cs.

Definition isHeaderFilter (f : Filter) : Prop :=
  match f with
  | PropertyString g => filterValue g ≠ ""%string
  | _ => False
  end.

Definition headerFilterInvariant (cs : list Filter) : Prop :=
  Forall isHeaderFilter cs ∧ NoDup (propertyIds cs).

(** Every array of the store holds header filters only. *)
Definition storeInvariant (st : State) : Prop :=
  ∀ l, headerFilterInvariant (arrays st !!! l).

(** Object identities are handed out in increasing order, and after a
    render without [experimentalFilter] the reference of the data provider
    is the header filter of that render. *)
Definition refInvariant (st : State) : Prop :=
  (objectId (internalFilter st) < nextId st)%nat
  ∧ (∀ o, queuedInternalFilter st = Some o →
       (objectId (internalFilter st) < objectId o < nextId st)%nat)
  ∧ (∀ props, rendered st = Some props → experimentalFilter props = None →
       dataProviderFilter st = Some (HeaderFilters (internalFilter st))).

(** Allocation is fresh: the arrays in use lie below [nextId], and nothing
    is stored at or above it. *)
Definition allocationInvariant (st : State) : Prop :=
  (children (internalFilter st) < nextId st)%nat
  ∧ (∀ o, queuedInternalFilter st = Some o → (children o < nextId st)%nat)
  ∧ (∀ l, (nextId st ≤ l)%nat → arrays st !! l = None).

(** The state at the next request: React may or may not have rendered the
    component [again], with the props it had. *)
Definition afterRender (again : bool) (props : Props) (st : State) : State :=
  if again then (render true props st).1 else st.

End Component.

Arguments HeaderFilters {Matcher} _.
Arguments Experimental {Matcher} _.
Arguments experimentalFilter {Matcher} _.
Arguments noHeaderFilters {Matcher} _.
Arguments refreshTrigger {Matcher} _.
Arguments arrays {Matcher} _.
Arguments nextId {Matcher} _.
Arguments internalFilter {Matcher} _.
Arguments queuedInternalFilter {Matcher} _.
Arguments dataProviderFilter {Matcher} _.
Arguments ref {Matcher} _.
Arguments rendered {Matcher} _.
Arguments hasPropertyId {Matcher} _ _.
Arguments headerChildren {Matcher} _.
Arguments setHeaderPropertyFilter {Matcher} _ _.
Arguments render {Matcher} _ _ _.
Arguments currentFilter {Matcher} _.
Arguments reachable {Matcher} _.
Arguments propertyIds {Matcher} _.
Arguments isHeaderFilter {Matcher} _.
Arguments headerFilterInvariant {Matcher} _.
Arguments storeInvariant {Matcher} _.
Arguments refInvariant {Matcher} _.
Arguments allocationInvariant {Matcher} _.
Arguments afterRender {Matcher} _ _ _.
Arguments writeChildren {Matcher} _ _.
Arguments changed {Matcher} _.
Arguments initial {Matcher}.
Arguments effectiveFilter {Matcher} _ _.
Arguments filterEffect {Matcher} _ _.
Arguments noHeaderFiltersEffect {Matcher} _ _.
Arguments sameExternal {Matcher} _ _.
Arguments effectiveRefreshTrigger {Matcher} _.
Arguments filterDepsChanged {Matcher} _ _ _ _.
Arguments noHeaderFiltersChanged {Matcher} _ _.
Arguments externalId {Matcher} _.
Arguments externalValue {Matcher} _.

(** A request of the grid to the installed data provider, whose closure
    holds [service] and [first]. *)
Definition request {TItem Matcher} (service : ListService TItem Matcher)
    (first : bool) (cacheSize : option Z) (params : Grid.GridDataProviderParams)
    (st : State Matcher) : bool * list (Event TItem Matcher) :=
  dataProvider service cacheSize (currentFilter st) first params.

End AutoGrid.

(** ** [Filter.java]: the Jackson annotations of the filter hierarchy *)

Module JavaFilter.

(** The classes named in [@JsonSubTypes]. *)
Inductive FilterClass := OrFilter | AndFilter | PropertyStringFilter.

#[global] Instance FilterClass_eq_dec : EqDecision FilterClass.
Proof. solve_decision. Defined.

(** [@JsonTypeInfo(use = JsonTypeInfo.Id.NAME, include = JsonTypeInfo.As.PROPERTY)] *)
Inductive Id := NAME.
Inductive As := PROPERTY.

Record JsonTypeInfo := {
  use : Id;
  include : As
}.

Definition Filter_JsonTypeInfo : JsonTypeInfo :=
  {| use := NAME; include := PROPERTY |}.

(** [@JsonSubTypes({ @Type(value = OrFilter.class, name = "or"), ... })] *)
Definition Filter_JsonSubTypes : list (FilterClass * string) :=
  [ (OrFilter, "or"); (AndFilter, "and"); (PropertyStringFilter, "propertyString") ]%string.

(** Modelled from the spec: [Filter.java] gives no [property] to
    [@JsonTypeInfo], and Jackson itself is not part of the sources; the
    discriminator is carried in a ['@type'] property, which is Jackson's
    default property name for [Id.NAME]. *)
Definition typeProperty (info : JsonTypeInfo) : string :=
  match use info, include info with
  | NAME, PROPERTY => "@type"
  end.

(** Modelled from the spec: resolving a discriminator against the declared
    sub-types, by name. *)
Definition resolve (name : string) : option FilterClass :=
  fst <$> (snd <$> list_find (λ entry, entry.2 = name) Filter_JsonSubTypes).

End JavaFilter.

(** ** The ['@type'] of the TypeScript filter objects *)

Module FilterType.
Section FilterType.

Variable Matcher : Type.

(** The key of the discriminator in the object literals
    [{ '@type': 'and', ... }] and [{ '@type': 'propertyString', ... }]. *)
Definition typeKey : string := "@type".

(** Modelled from the spec: the generated [FilterUnion] types are not under
    the sources.  ['and'] and ['propertyString'] are the literals
    [autogrid.tsx] and [ReadOnlyGridSinglePropertyFilter.tsx] write; ['or']
    is the name [Filter.java] declares for [OrFilter], from which the
    TypeScript type is generated. *)
Definition typeOf (f : FilterUnion Matcher) : string :=
  match f with
  | OrFilter _ => "or"
  | AndFilter _ => "and"
  | PropertyString _ => "propertyString"
  end.

(** The Java class a TypeScript filter object is generated from. *)
Definition classOf (f : FilterUnion Matcher) : JavaFilter.FilterClass :=
  match f with
  | OrFilter _ => JavaFilter.OrFilter
  | AndFilter _ => JavaFilter.AndFilter
  | PropertyString _ => JavaFilter.PropertyStringFilter
  end.

End FilterType.
End FilterType.

(** ** [BackbonePlugin.java] *)

Module BackbonePlugin.
Section BackbonePlugin.

(** The types of the parser core and of Swagger, none of them under the
    sources. *)
Variable RelativeClassInfo : Type.
Variable OpenAPI : Type.
Variable OtherStorage : Type.

(** [new EndpointProcessor(classes, model).process()] and
    [new EntityProcessor(classes, model).process()]: what they do to the
    model object they are given. *)
Variable EndpointProcessor_process : list RelativeClassInfo → OpenAPI → OpenAPI.
Variable EntityProcessor_process : list RelativeClassInfo → OpenAPI → OpenAPI.

(** Calls made by the plugin, for the order of events. *)
Inductive Call :=
| GetOpenAPI
| EndpointProcess (endpoints : list RelativeClassInfo)
| EntityProcess (entities : list RelativeClassInfo).

(** [SharedStorage] with the one model object it holds, and the log of
    calls. *)
Record World := {
  openAPI : OpenAPI;
  otherStorage : OtherStorage;
  calls : list Call
}.

(** A state monad over the world. *)
Definition M (A : Type) : Type := World → A * World.

Definition ret {A} (a : A) : M A := λ w, (a, w).

Definition bind {A B} (m : M A) (k : A → M B) : M B :=
  λ w, let '(a, w) := m w in k a w.

Notation "x <- m ;; k" := (bind m (λ x, k))
  (at level 100, m at next level, right associativity).
Notation "m ;; k" := (bind m (λ _, k))
  (at level 100, right associativity).

Definition logCall (c : Call) : M unit :=
  λ w, (tt, {| openAPI := openAPI w; otherStorage := otherStorage w;
               calls := calls w ++ [c] |}).

(** A handle on the model object of the storage. *)
Inductive ModelRef := TheModel.

(** [storage.getOpenAPI()] *)
Definition getOpenAPI : M ModelRef :=
  logCall GetOpenAPI ;; ret TheModel.

(** A processor mutating the model object behind the handle. *)
Definition mutate (model : ModelRef) (f : OpenAPI → OpenAPI) : M unit :=
  λ w, (tt, {| openAPI := f (openAPI w); otherStorage := otherStorage w;
               calls := calls w |}).

Definition EndpointProcessor (endpoints : list RelativeClassInfo) (model : ModelRef)
    : M unit :=
  logCall (EndpointProcess endpoints) ;;
  mutate model (EndpointProcessor_process endpoints).

Definition EntityProcessor (entities : list RelativeClassInfo) (model : ModelRef)
    : M unit :=
  logCall (EntityProcess entities) ;;
  mutate model (EntityProcessor_process entities).

(** [BackbonePlugin.execute(endpoints, entities, storage)] *)
Definition execute (endpoints entities : list RelativeClassInfo) : M unit :=
  model <- getOpenAPI ;;
  EndpointProcessor endpoints model ;;
  EntityProcessor entities model.

End BackbonePlugin.
End BackbonePlugin.

(** ** [TypeArgumentModel.java] *)

Module TypeArgumentModel.

(** [SignatureModel]: the interface the model extends; [isTypeArgument] is
    the method [TypeArgumentModel] gives a default for. *)
Class SignatureModel (M : Type) := {
  isTypeArgument : M → bool
}.

Section TypeArgumentModel.

(** [io.github.classgraph.TypeArgument], [java.lang.reflect.AnnotatedType]
    and the parser's [Model]. *)
Variable TypeArgument : Type.
Variable AnnotatedType : Type.
Variable Model : Type.

Inductive Thrown := NullPointerException.

(** [Objects.requireNonNull]; a Java reference is [None] when it is
    [null]. *)
Definition requireNonNull {A} (o : option A) : Thrown + A :=
  match o with
  | Some a => inr a
  | None => inl NullPointerException
  end.

(** The two implementations; their constructors store what they get. *)
Inductive TypeArgumentModel :=
| TypeArgumentSourceModel (origin : TypeArgument) (parent : Model)
| TypeArgumentReflectionModel (origin : AnnotatedType) (parent : option Model).

(** [default boolean isTypeArgument() { return true; }] *)
#[global] Instance TypeArgumentModel_SignatureModel : SignatureModel TypeArgumentModel :=
  {| isTypeArgument := λ _, true |}.

(** [static TypeArgumentModel of(@Nonnull TypeArgument origin, @Nonnull Model parent)] *)
Definition of_TypeArgument (origin : option TypeArgument) (parent : option Model)
    : Thrown + TypeArgumentModel :=
  match requireNonNull origin with
  | inl e => inl e
  | inr origin =>
      match requireNonNull parent with
      | inl e => inl e
      | inr parent => inr (TypeArgumentSourceModel origin parent)
      end
  end.

(** [static TypeArgumentModel of(@Nonnull AnnotatedType origin, Model parent)] *)
Definition of_AnnotatedType (origin : option AnnotatedType) (parent : option Model)
    : Thrown + TypeArgumentModel :=
  match requireNonNull origin with
  | inl e => inl e
  | inr origin => inr (TypeArgumentReflectionModel origin parent)
  end.

End TypeArgumentModel.
End TypeArgumentModel.

(** ** [EndpointsValidator], as [EndpointsValidatorTest.java] drives it *)

Module EndpointsValidator.

(** A class of the set handed to the validator: its name and the names of
    its annotations. *)
Record JavaClass := {
  className : string;
  annotations : list string
}.

(** [dev.hilla.Endpoint] *)
Definition Endpoint : string := "dev.hilla.Endpoint".

Inductive Thrown := ServletException.

(** [validator.setClassToCheck(name)] sets this field. *)
Record EndpointsValidator := {
  classToCheck : string
}.

Definition setClassToCheck (name : string) (v : EndpointsValidator)
    : EndpointsValidator :=
  {| classToCheck := name |}.

Definition isEndpoint (c : JavaClass) : bool :=
  bool_decide (Endpoint ∈ annotations c).

(** Modelled from the spec: [EndpointsValidator.java] is not under the
    sources, only its test is.  [process] returns when the class set is
    [null] or holds no class annotated with [@Endpoint], and throws
    [ServletException] when there is such a class and the class to check
    cannot be loaded; [classpath] lists the loadable class names.  The
    servlet context, a mock in the test, plays no part. *)
Definition process (classpath : list string) (v : EndpointsValidator)
    (classSet : option (list JavaClass)) : Thrown + unit :=
  match classSet with
  | None => inr tt
  | Some classes =>
      if existsb isEndpoint classes then
        if bool_decide (classToCheck v ∈ classpath) then inr tt
        else inl ServletException
      else inr tt
  end.

End EndpointsValidator.

(** ** Fixtures of the test suites *)

Module Fixtures.
Import AutoGrid.

(** The matchers [autogrid.spec.tsx] uses. *)
Inductive TestMatcher := CONTAINS | EQUALS | GREATER_THAN.

(** [<AutoGrid service={service} model={PersonModel} />] *)
Definition plainProps : Props TestMatcher :=
  {| experimentalFilter := None; noHeaderFilters := None; refreshTrigger := None |}.

(** The same with [refreshTrigger={1}]. *)
Definition refreshedProps : Props TestMatcher :=
  {| experimentalFilter := None; noHeaderFilters := None; refreshTrigger := Some 1 |}.

(** The component after its first render. *)
Definition mounted : State TestMatcher := (render true plainProps initial).1.

(** The filter expected by 'filter when you type in the field for a string
    column'. *)
Definition firstNameFilter : PropertyStringFilter TestMatcher :=
  {| propertyId := "firstName"; matcher := CONTAINS; filterValue := "filter-value" |}.

(** A service with two persons, and the request for the first page of two
    rows sorted by first name. *)
Definition twoPersons : ListService string TestMatcher :=
  λ _ _, Resolved ["Jane"; "John"]%string.

Definition firstPage : Grid.GridDataProviderParams :=
  {| Grid.page := 0; Grid.pageSize := 2;
     Grid.sortOrders :=
       [ {| Grid.path := "firstName"; Grid.direction := Some "asc" |} ]%string |}.

(** A sorter of the grid and a filter typed into a text field. *)
Definition sorter (path : string) (direction : option string)
    : Grid.GridSorterDefinition :=
  {| Grid.path := path; Grid.direction := direction |}.

Definition typed (id value : string) : PropertyStringFilter TestMatcher :=
  {| propertyId := id; matcher := CONTAINS; filterValue := value |}.

(** What the test service records as [lastSort] and [lastFilter] for a
    request with the given sorters. *)
Definition lastCall (sorters : list Grid.GridSorterDefinition) (st : State TestMatcher)
    : list (list Mapped.Order * option (FilterUnion TestMatcher)) :=
  (λ c, (Mapped.orders (Mapped.sort c.1), c.2))
    <$> serviceCalls
          (request twoPersons false None
             {| Grid.page := 0; Grid.pageSize := 50; Grid.sortOrders := sorters |} st).2.

(** [EndpointsValidatorTest.java]: the two nested classes, and the validator
    of [should_trow_when_spring_not_in_classpath] after
    [setClassToCheck("foo.bar.Baz")], whatever it checked before. *)
Definition WithConnectEndpoint : EndpointsValidator.JavaClass :=
  {| EndpointsValidator.className := "WithConnectEndpoint";
     EndpointsValidator.annotations := [EndpointsValidator.Endpoint] |}.

Definition WithoutConnectEndpoint : EndpointsValidator.JavaClass :=
  {| EndpointsValidator.className := "WithoutConnectEndpoint";
     EndpointsValidator.annotations := [] |}.

Definition fooBarBaz : EndpointsValidator.EndpointsValidator :=
  EndpointsValidator.setClassToCheck "foo.bar.Baz"
    {| EndpointsValidator.classToCheck := "" |}.

End Fixtures.

(** ** More of [autogrid.tsx]: the setter on the array, runs of the
     data provider *)

Module HeaderFilterArray.
Section HeaderFilterArray.

Variable Matcher : Type.

(** The body of [setHeaderPropertyFilter] as it acts on the array
    [internalFilter.children], found as [cs]: [splice(filterIndex, 1)],
    [children[filterIndex] = propertyFilter], [push(propertyFilter)], or
    nothing. *)
Definition childrenAfter (propertyFilter : PropertyStringFilter Matcher)
    (cs : list (FilterUnion Matcher)) : list (FilterUnion Matcher) :=
  let filterIndex :=
    AutoGrid.findIndex (AutoGrid.hasPropertyId (propertyId propertyFilter)) cs in
  if decide (filterValue propertyFilter = ""%string) then
    if 0 <=? filterIndex then delete (Z.to_nat filterIndex) cs else cs
  else if 0 <=? filterIndex then
    <[Z.to_nat filterIndex := PropertyString propertyFilter]> cs
  else cs ++ [PropertyString propertyFilter].

End HeaderFilterArray.

Arguments childrenAfter {Matcher} _ _.

End HeaderFilterArray.

Module DataProviderRun.
Import AutoGrid.
Section DataProviderRun.

Variable TItem : Type.
Variable Matcher : Type.

(** One request of the grid: the cache size and the filter reference at
    that time, and the parameters. *)
Definition GridRequest : Type :=
  option Z * option (FilterUnion Matcher) * Grid.GridDataProviderParams.

(** Successive requests to one data provider: the closure variable [first]
    is threaded from call to call. *)
Fixpoint runRequests (service : ListService TItem Matcher) (first : bool)
    (requests : list GridRequest) : bool * list (Event TItem Matcher) :=
  match requests with
  | [] => (first, [])
  | (cacheSize, current, params) :: requests =>
      let '(first, evs) := dataProvider service cacheSize current first params in
      let '(first, evs') := runRequests service first requests in
      (first, evs ++ evs')
  end.

(** The number of [setTimeout(() => grid.recalculateColumnWidths(), 0)]
    in a trace. *)
Definition recalculations (evs : list (Event TItem Matcher)) : nat :=
  length (omap (λ e, match e with
                     | SetTimeout_recalculateColumnWidths => Some tt
                     | _ => None
                     end) evs).

(** Does the service answer this request? *)
Definition resolves (service : ListService TItem Matcher) (r : GridRequest) : bool :=
  match service (requestOf r.2) r.1.2 with
  | Resolved _ => true
  | Rejected => false
  end.

(** The page of [data] a paging service returns for a request. *)
Definition pageOf (data : list TItem) (req : Mapped.Pageable) : list TItem :=
  take (Z.to_nat (Mapped.pageSize req))
    (drop (Z.to_nat (Mapped.pageNumber req * Mapped.pageSize req)) data).

End DataProviderRun.

Arguments runRequests {TItem Matcher} _ _ _.
Arguments recalculations {TItem Matcher} _.
Arguments resolves {TItem Matcher} _ _.
Arguments pageOf {TItem} _ _.

End DataProviderRun.

(** ** [useColumns] of [autogrid.tsx] *)

Module UseColumns.
Section UseColumns.

(** What [useColumns] takes from [property-info.js], [autogrid-columns.js],
    [header-sorter] and React, none of them under the sources:
    [propertyInfo.name], [includeProperty], the props of a column, header
    renderers with [HeaderSorter] among them, [getColumnOptions] with its
    result split into [headerRenderer] and the rest, the elements of
    [customColumns], and the two setters passed through the context. *)
Variable PropertyInfo : Type.
Variable name : PropertyInfo → string.
Variable includeProperty : PropertyInfo → bool.
Variable ColumnOptions : Type.
Variable Renderer : Type.
Variable HeaderSorter : Renderer.
Variable getColumnOptions :
  PropertyInfo → option ColumnOptions → option Renderer * ColumnOptions.
Variable CustomColumn : Type.
Variable SetPropertyFilter : Type.
Variable SetSortState : Type.

(** [SortState]: [{ [name]: { direction } }]. *)
Definition SortState : Type := gmap string string.

(** The [options] argument; an absent option is [None]. *)
Record Options := {
  visibleColumns : option (list string);
  noHeaderFilters : option bool;
  customColumns : option (list CustomColumn);
  columnOptions : option (gmap string ColumnOptions);
  rowNumbers : option bool
}.

(** [<GridColumn path={...} headerRenderer={...} {...columnProps}>]: the
    attributes as written. *)
Record GridColumn := {
  path : string;
  headerRenderer : option Renderer;
  columnProps : ColumnOptions
}.

(** The [column] of a property: a group around the column, or the column. *)
Inductive Column :=
| GridColumnGroup (headerRenderer : Renderer) (child : GridColumn)
| Plain (column : GridColumn).

(** The [value] of [ColumnContext.Provider]. *)
Record ColumnContext := {
  propertyInfo : PropertyInfo;
  setPropertyFilter : SetPropertyFilter;
  sortState : SortState;
  setSortState : SetSortState;
  customColumnOptions : option ColumnOptions
}.

(** The elements [useColumns] returns. *)
Inductive Element :=
| Provider (key : string) (value : ColumnContext) (column : Column)
| Custom (element : CustomColumn)
| RowNumbers.

(** JavaScript truthiness of an optional boolean. *)
Definition truthy (b : option bool) : bool := default false b.

(** [options.visibleColumns ?? properties.filter(includeProperty).map((p) => p.name)] *)
Definition effectiveColumns (properties : list PropertyInfo) (options : Options)
    : list string :=
  match visibleColumns options with
  | Some columns => columns
  | None => name <$> filter (λ p, includeProperty p = true) properties
  end.

(** [properties.find((prop) => prop.name === name)] *)
Definition find (properties : list PropertyInfo) (n : string) : option PropertyInfo :=
  snd <$> list_find (λ prop, name prop = n) properties.

(** [effectiveColumns.map(...find...).filter(Boolean)] *)
Definition effectiveProperties (properties : list PropertyInfo) (options : Options)
    : list PropertyInfo :=
  omap (find properties) (effectiveColumns properties options).

(** The initial value of [useState<SortState>]. *)
Definition initialSortState (effective : list PropertyInfo) : SortState :=
  match effective with
  | first :: _ => {[ name first := "asc"%string ]}
  | [] => ∅
  end.

(** The element made for one property. *)
Definition columnOf (setPropertyFilter : SetPropertyFilter)
    (sortState : SortState) (setSortState : SetSortState) (options : Options)
    (propertyInfo : PropertyInfo) : Element :=
  let customColumnOptions :=
    match columnOptions options with
    | Some columnOptions => columnOptions !! name propertyInfo
    | None => None
    end in
  let '(headerRenderer, columnProps) :=
    getColumnOptions propertyInfo customColumnOptions in
  let column :=
    if negb (truthy (noHeaderFilters options)) then
      GridColumnGroup HeaderSorter
        {| path := name propertyInfo; headerRenderer := headerRenderer;
           columnProps := columnProps |}
    else
      Plain {| path := name propertyInfo; headerRenderer := Some HeaderSorter;
               columnProps := columnProps |} in
  Provider (name propertyInfo)
    {| propertyInfo := propertyInfo; setPropertyFilter := setPropertyFilter;
       sortState := sortState; setSortState := setSortState;
       customColumnOptions := customColumnOptions |}
    column.

(** [useColumns(properties, setPropertyFilter, options)]: [hook] is the
    sort state React holds for the component, [None] in the first render;
    the result is the state held afterwards and the columns. *)
Definition useColumns (hook : option SortState) (setSortState : SetSortState)
    (properties : list PropertyInfo) (setPropertyFilter : SetPropertyFilter)
    (options : Options) : SortState * list Element :=
  let effectiveProperties := effectiveProperties properties options in
  let sortState := default (initialSortState effectiveProperties) hook in
  let columns :=
    columnOf setPropertyFilter sortState setSortState options <$> effectiveProperties in
  let columns :=
    match customColumns options with
    | Some customColumns => columns ++ (Custom <$> customColumns)
    | None => columns
    end in
  let columns :=
    if truthy (rowNumbers options) then RowNumbers :: columns else columns in
  (sortState, columns).

(** The keys of the columns made for properties, in their order. *)
Definition propertyKeys (columns : list Element) : list string :=
  omap (λ e, match e with Provider key _ _ => Some key | _ => None end) columns.

(** The header renderers an element carries, outermost first. *)
Definition headerRenderers (e : Element) : list Renderer :=
  match e with
  | Provider _ _ (GridColumnGroup renderer child) =>
      renderer :: option_list (headerRenderer child)
  | Provider _ _ (Plain column) => option_list (headerRenderer column)
  | _ => []
  end.

(** The sort state the columns are given. *)
Definition contextSortStates (columns : list Element) : list SortState :=
  omap (λ e, match e with Provider _ value _ => Some (sortState value) | _ => None end)
    columns.

End UseColumns.

Arguments visibleColumns {ColumnOptions CustomColumn} _.
Arguments noHeaderFilters {ColumnOptions CustomColumn} _.
Arguments customColumns {ColumnOptions CustomColumn} _.
Arguments columnOptions {ColumnOptions CustomColumn} _.
Arguments rowNumbers {ColumnOptions CustomColumn} _.
Arguments Provider
  {PropertyInfo ColumnOptions Renderer CustomColumn SetPropertyFilter SetSortState} _ _ _.
Arguments Custom
  {PropertyInfo ColumnOptions Renderer CustomColumn SetPropertyFilter SetSortState} _.
Arguments RowNumbers
  {PropertyInfo ColumnOptions Renderer CustomColumn SetPropertyFilter SetSortState}.
Arguments effectiveColumns {PropertyInfo} _ _ {ColumnOptions CustomColumn} _ _.
Arguments effectiveProperties {PropertyInfo} _ _ {ColumnOptions CustomColumn} _ _.
Arguments find {PropertyInfo} _ _ _.
Arguments initialSortState {PropertyInfo} _ _.
Arguments columnOf {PropertyInfo} _ {ColumnOptions Renderer} _ _
  {CustomColumn SetPropertyFilter SetSortState} _ _ _ _ _.
Arguments useColumns {PropertyInfo} _ _ {ColumnOptions Renderer} _ _
  {CustomColumn SetPropertyFilter SetSortState} _ _ _ _ _.
Arguments headerRenderers
  {PropertyInfo ColumnOptions Renderer CustomColumn SetPropertyFilter SetSortState} _.
Arguments propertyKeys
  {PropertyInfo ColumnOptions Renderer CustomColumn SetPropertyFilter SetSortState} _.
Arguments contextSortStates
  {PropertyInfo ColumnOptions Renderer CustomColumn SetPropertyFilter SetSortState} _.

End UseColumns.

(** ** The views of [react-grid-test] *)

Module ReadOnlyGridWithHeaderFilters.
Section ReadOnlyGridWithHeaderFilters.

Variable Matcher : Type.

(** The generated models and services the view switches between. *)
Inductive Model := PersonModel | CompanyModel.
Inductive Service := PersonService | CompanyService.

(** The three [useState] of the view; [model] is the one-element array's
    element. *)
Record View := {
  model : Model;
  service : Service;
  noHeaderFilters : bool
}.

Definition initialView : View :=
  {| model := PersonModel; service := PersonService; noHeaderFilters := false |}.

(** [onClick] of 'Change bean type'. *)
Definition changeBeanType (v : View) : View :=
  match model v with
  | PersonModel =>
      {| model := CompanyModel; service := CompanyService;
         noHeaderFilters := noHeaderFilters v |}
  | _ =>
      {| model := PersonModel; service := PersonService;
         noHeaderFilters := noHeaderFilters v |}
  end.

(** [onClick] of 'Toggle header filters'. *)
Definition toggleHeaderFilters (v : View) : View :=
  {| model := model v; service := service v;
     noHeaderFilters := negb (noHeaderFilters v) |}.

Inductive Click := ChangeBeanType | ToggleHeaderFilters.

#[global] Instance Click_eq_dec : EqDecision Click.
Proof. solve_decision. Defined.

Definition click (v : View) (c : Click) : View :=
  match c with
  | ChangeBeanType => changeBeanType v
  | ToggleHeaderFilters => toggleHeaderFilters v
  end.

(** The view after a sequence of clicks. *)
Definition clicks (cs : list Click) : View := foldl click initialView cs.

(** [<AutoGrid pageSize={10} service={service} model={model[0]}
    noHeaderFilters={noHeaderFilters} />]: the props the effects read. *)
Definition gridProps (v : View) : AutoGrid.Props Matcher :=
  {| AutoGrid.experimentalFilter := None;
     AutoGrid.noHeaderFilters := Some (noHeaderFilters v);
     AutoGrid.refreshTrigger := None |}.

(** The service that belongs to a model. *)
Definition serviceOf (m : Model) : Service :=
  match m with
  | PersonModel => PersonService
  | CompanyModel => CompanyService
  end.

End ReadOnlyGridWithHeaderFilters.

Arguments gridProps {Matcher} _.

End ReadOnlyGridWithHeaderFilters.

Module ReadOnlyGridSinglePropertyFilter.
Section ReadOnlyGridSinglePropertyFilter.

Variable Matcher : Type.

(** [Matcher.CONTAINS] *)
Variable CONTAINS : Matcher.

(** [useState<FilterUnion | undefined>(undefined)], and the identity the
    next object literal gets. *)
Record View := {
  filter : option (AutoGrid.ExternalFilter Matcher);
  nextObject : nat
}.

Definition initialView : View := {| filter := None; nextObject := 0 |}.

(** The object literal of [onValueChanged]. *)
Definition firstNameContains (value : string) : FilterUnion Matcher :=
  PropertyString
    {| propertyId := "firstName"; matcher := CONTAINS; filterValue := value |}.

(** [onValueChanged={({ detail: { value } }) => { setFilter({...}) }}] *)
Definition onValueChanged (value : string) (v : View) : View :=
  {| filter := Some {| AutoGrid.externalId := nextObject v;
                       AutoGrid.externalValue := firstNameContains value |};
     nextObject := S (nextObject v) |}.

(** [<AutoGrid pageSize={10} service={PersonService}
    experimentalFilter={filter} model={PersonModel} noHeaderFilters />] *)
Definition gridProps (v : View) : AutoGrid.Props Matcher :=
  {| AutoGrid.experimentalFilter := filter v;
     AutoGrid.noHeaderFilters := Some true;
     AutoGrid.refreshTrigger := None |}.

(** The view and its grid: mounted, rendered again, or rendered after a
    value was typed. *)
Inductive reachable : View → AutoGrid.State Matcher → Prop :=
| reachable_mount :
    reachable initialView
      (AutoGrid.render true (gridProps initialView) AutoGrid.initial).1
| reachable_render v st :
    reachable v st → reachable v (AutoGrid.render true (gridProps v) st).1
| reachable_typed value v st :
    reachable v st →
    reachable (onValueChanged value v)
      (AutoGrid.render true (gridProps (onValueChanged value v)) st).1.

End ReadOnlyGridSinglePropertyFilter.

Arguments filter {Matcher} _.
Arguments nextObject {Matcher} _.
Arguments initialView {Matcher}.
Arguments firstNameContains {Matcher} _ _.
Arguments onValueChanged {Matcher} _ _ _.
Arguments gridProps {Matcher} _.
Arguments reachable {Matcher} _ _ _.

End ReadOnlyGridSinglePropertyFilter.

(** ** The entry point of [@hilla/frontend] *)

Module FrontendIndex.

(** [{ is, version }]; [is] is reserved, hence [is_]. *)
Record Registration := {
  is_ : string;
  version : string
}.

Definition registration : Registration :=
  {| is_ := "@hilla/frontend"; version := "1.1.0-alpha2" |}.

Section FrontendIndex.

(** The other properties an existing [window.Vaadin] has; [{}] has none. *)
Variable Other : Type.
Variable noOther : Other.

(** [window.Vaadin]: its [registrations], [None] when that is not set. *)
Record Vaadin := {
  registrations : option (list Registration);
  other : Other
}.

(** What loading the module does to [window.Vaadin], [None] when that is
    not set:
    [$wnd.Vaadin = $wnd.Vaadin || {}],
    [$wnd.Vaadin.registrations = $wnd.Vaadin.registrations || []],
    [$wnd.Vaadin.registrations.push({...})]. *)
Definition load (wnd : option Vaadin) : option Vaadin :=
  let Vaadin := default {| registrations := None; other := noOther |} wnd in
  let registrations := default [] (registrations Vaadin) in
  Some {| registrations := Some (registrations ++ [registration]);
          other := other Vaadin |}.

(** The registrations found on a window. *)
Definition registered (wnd : option Vaadin) : list Registration :=
  match wnd with
  | Some Vaadin => default [] (registrations Vaadin)
  | None => []
  end.

End FrontendIndex.

Arguments registrations {Other} _.
Arguments other {Other} _.
Arguments load {Other} _ _.
Arguments registered {Other} _.

End FrontendIndex.

(** ** The size computation in JavaScript numbers *)

Module JsNumber.

(** Rounding of an exact integer result to the nearest IEEE 754 double,
    ties to the even significand: the integers of magnitude below [2^53]
    are doubles; from there on the doubles are the multiples of
    [2^(e-52)] for magnitudes in [[2^e, 2^(e+1))].  Overflow to [Infinity],
    at magnitudes of [2^1024], is outside of what is modelled. *)
Definition roundToDouble (z : Z) : Z :=
  if Z.abs z <? 2 ^ 53 then z
  else
    let ulp := 2 ^ (Z.log2 (Z.abs z) - 52) in
    let significand := Z.abs z / ulp in
    let rest := Z.abs z mod ulp in
    let rounded :=
      if 2 * rest <? ulp then significand
      else if ulp <? 2 * rest then significand + 1
      else if Z.even significand then significand
      else significand + 1 in
    Z.sgn z * (rounded * ulp).

(** [a + b] and [a * b] on numbers that hold integers. *)
Definition add (a b : Z) : Z := roundToDouble (a + b).
Definition mul (a b : Z) : Z := roundToDouble (a * b).

End JsNumber.

Module AutoGridJS.
Import AutoGrid.
Section AutoGridJS.

Variable TItem : Type.
Variable Matcher : Type.

(** [size] as the code computes it, each operation rounded as a
    JavaScript number is:
    [(pageNumber + 1) * pageSize + 1] and
    [pageNumber * pageSize + items.length]. *)
Definition reportedSizeJS (cacheSize : option Z) (pageNumber pageSize : Z)
    (items : list TItem) : option Z :=
  if Z.of_nat (length items) =? pageSize then
    let size := JsNumber.add (JsNumber.mul (JsNumber.add pageNumber 1) pageSize) 1 in
    match cacheSize with
    | Some cacheSize => if size <? cacheSize then None else Some size
    | None => Some size
    end
  else
    Some (JsNumber.add (JsNumber.mul pageNumber pageSize) (Z.of_nat (length items))).

(** The function returned by [createDataProvider], as [dataProvider], with
    the size computed in JavaScript numbers. *)
Definition dataProviderJS (service : ListService TItem Matcher)
    (cacheSize : option Z) (current : option (FilterUnion Matcher))
    (first : bool) (params : Grid.GridDataProviderParams)
    : bool * list (Event TItem Matcher) :=
  let sort :=
    {| Mapped.orders := toOrder <$> filter hasDirection (Grid.sortOrders params) |} in
  let pageNumber := Grid.page params in
  let pageSize := Grid.pageSize params in
  let req :=
    {| Mapped.pageNumber := pageNumber;
       Mapped.pageSize := pageSize;
       Mapped.sort := sort |} in
  match service req current with
  | Rejected => (first, [ServiceList req current])
  | Resolved items =>
      let size := reportedSizeJS cacheSize pageNumber pageSize items in
      (false,
       [ServiceList req current; Callback items size]
         ++ (if first then [SetTimeout_recalculateColumnWidths] else []))
  end.

End AutoGridJS.

Arguments reportedSizeJS {TItem} _ _ _ _.
Arguments dataProviderJS {TItem Matcher} _ _ _ _ _.

End AutoGridJS.

(** ** More fixtures *)

Module MoreFixtures.
Import AutoGrid Fixtures.

(** A service over five persons that pages and ignores sort and filter. *)
Definition fivePersons : list string :=
  ["Jane"; "John"; "Ann"; "Bob"; "Eve"]%string.

Definition pagingService : ListService string TestMatcher :=
  λ req _, Resolved (DataProviderRun.pageOf fivePersons req).

(** The third page of two rows: the last one, with a single row. *)
Definition thirdPage : Grid.GridDataProviderParams :=
  {| Grid.page := 2; Grid.pageSize := 2; Grid.sortOrders := [] |}.

(** [<AutoGrid ... noHeaderFilters />] *)
Definition headerFiltersOff : Props TestMatcher :=
  {| experimentalFilter := None; noHeaderFilters := Some true; refreshTrigger := None |}.

(** The filter of 'passes filter to the data provider'. *)
Definition janFilter : ExternalFilter TestMatcher :=
  {| externalId := 0; externalValue := PropertyString (typed "firstName" "Jan") |}.

Definition withExperimentalFilter : Props TestMatcher :=
  {| experimentalFilter := Some janFilter; noHeaderFilters := None;
     refreshTrigger := None |}.

(** The mounted grid after values were typed into two header fields. *)
Definition twoFilters : State TestMatcher :=
  setHeaderPropertyFilter (typed "lastName" "L")
    (setHeaderPropertyFilter (typed "firstName" "Jan") mounted).

(** The grid mounted with the experimental filter. *)
Definition mountedWithFilter : State TestMatcher :=
  (render true withExperimentalFilter initial).1.

(** The grid of [ReadOnlyGridWithHeaderFilters] after a value was typed
    into the first-name field. *)
Definition viewGrid : State TestMatcher :=
  setHeaderPropertyFilter (typed "firstName" "Joh")
    (render true
       (ReadOnlyGridWithHeaderFilters.gridProps
          ReadOnlyGridWithHeaderFilters.initialView) initial).1.

(** A service that returns one person, and the request for the page
    [2^53 - 1] of one row. *)
Definition onePerson : ListService string TestMatcher :=
  λ _ _, Resolved ["Jane"]%string.

Definition farPage : Grid.GridDataProviderParams :=
  {| Grid.page := 9007199254740991; Grid.pageSize := 1; Grid.sortOrders := [] |}.

End MoreFixtures.

(** * Properties *)

(** ** The data provider *)

Module DataProviderFacts.
Import AutoGrid.

Section DataProviderFacts.

Context {TItem Matcher : Type}.

Implicit Types (service : ListService TItem Matcher).
Implicit Types (current : option (FilterUnion Matcher)).
Implicit Types (params : Grid.GridDataProviderParams).

Lemma dataProvider_serviceCalls service cacheSize current first params :
  serviceCalls (dataProvider service cacheSize current first params).2
  = [(requestOf params, current)].
Proof.
  unfold dataProvider. fold (requestOf params).
  destruct (service (requestOf params) current); [|reflexivity].
  destruct first; reflexivity.
Qed.

Lemma dataProvider_callbacks_resolved service cacheSize current first params items :
  service (requestOf params) current = Resolved items →
  callbacks (dataProvider service cacheSize current first params).2
  = [(items, reportedSize cacheSize (Grid.page params) (Grid.pageSize params) items)].
Proof.
  intros Hs. unfold dataProvider. fold (requestOf params). rewrite Hs.
  destruct first; reflexivity.
Qed.

Lemma dataProvider_callbacks_rejected service cacheSize current first params :
  service (requestOf params) current = Rejected →
  callbacks (dataProvider service cacheSize current first params).2 = [].
Proof.
  intros Hs. unfold dataProvider. fold (requestOf params). rewrite Hs.
  reflexivity.
Qed.

(** C1.  A request to the data provider calls [service.list] exactly once,
    with a pageable whose [pageNumber] and [pageSize] are the [page] and
    [pageSize] of the request; when the service answers, the grid callback
    is called once, with the very list of items the service returned. *)
Theorem dataProvider_lists_once_and_passes_items
    service cacheSize current first params :
  let evs := (dataProvider service cacheSize current first params).2 in
  ∃ req,
    serviceCalls evs = [(req, current)]
    ∧ Mapped.pageNumber req = Grid.page params
    ∧ Mapped.pageSize req = Grid.pageSize params
    ∧ match service req current with
      | Resolved items => (callbacks evs).*1 = [items]
      | Rejected => callbacks evs = []
      end.
Proof.
  intros evs. exists (requestOf params). subst evs.
  split; [apply dataProvider_serviceCalls|].
  do 2 (split; [reflexivity|]).
  destruct (service (requestOf params) current) as [items|] eqn:Hs.
  - by rewrite (dataProvider_callbacks_resolved _ _ _ _ _ items Hs).
  - by apply dataProvider_callbacks_rejected.
Qed.

(** The code's sort satisfies the specification's description... *)
Lemma sortSpec_toOrder (os : list Grid.GridSorterDefinition) :
  sortSpec os (toOrder <$> filter hasDirection os).
Proof.
  induction os as [|o os IH]; [constructor|].
  destruct (Grid.direction o) as [d|] eqn:Hd.
  - rewrite filter_cons_True by (unfold hasDirection; congruence).
    rewrite fmap_cons. unfold toOrder at 1. rewrite Hd.
    destruct (decide (Some d = Some "asc"%string)) as [Heq|Hne].
    + apply sortSpec_asc; [congruence|done].
    + apply (sortSpec_other o d); [done|congruence|done].
  - rewrite filter_cons_False by (unfold hasDirection; intros H; by apply H).
    by apply sortSpec_null.
Qed.

(** ... and the description determines the sort. *)
Lemma sortSpec_functional os rs1 rs2 :
  sortSpec os rs1 → sortSpec os rs2 → rs1 = rs2.
Proof.
  intros H1. revert rs2.
  induction H1; intros rs2 H2; inversion H2; subst;
    try congruence; f_equal; auto.
Qed.

(** C2.  The sort sent to the service is the list the specification
    describes, and the only one: the grid's sorters whose direction is not
    null, in their order, each as an order on the sorter's path, ascending
    for ['asc'] and descending otherwise, never ignoring case. *)
Theorem dataProvider_sort_orders service cacheSize current first params :
  let evs := (dataProvider service cacheSize current first params).2 in
  ∃ req,
    serviceCalls evs = [(req, current)]
    ∧ (∀ rs, sortSpec (Grid.sortOrders params) rs ↔ rs = Mapped.orders (Mapped.sort req))
    ∧ Forall (λ o, Mapped.ignoreCase o = false) (Mapped.orders (Mapped.sort req)).
Proof.
  intros evs. exists (requestOf params). subst evs.
  split; [apply dataProvider_serviceCalls|]. split.
  - intros rs. split.
    + intros Hrs. eapply sortSpec_functional; [exact Hrs|apply sortSpec_toOrder].
    + intros ->. apply sortSpec_toOrder.
  - simpl. apply Forall_fmap, Forall_forall. by intros.
Qed.

End DataProviderFacts.

End DataProviderFacts.

(** ** The size in JavaScript numbers *)

Module ReportedSizeFacts.
Import AutoGrid AutoGridJS DataProviderFacts.

(** Integers of magnitude up to [2^53] are doubles. *)
Lemma roundToDouble_exact (z : Z) :
  - 2 ^ 53 ≤ z ≤ 2 ^ 53 → JsNumber.roundToDouble z = z.
Proof.
  change (2 ^ 53) with 9007199254740992. intros Hz.
  unfold JsNumber.roundToDouble. change (2 ^ 53) with 9007199254740992.
  destruct (Z.ltb_spec (Z.abs z) 9007199254740992) as [|Hge]; [done|].
  assert (z = 9007199254740992 ∨ z = - 9007199254740992) as [-> | ->] by lia;
    reflexivity.
Qed.

Section ReportedSizeFacts.

Context {TItem Matcher : Type}.

Implicit Types (service : ListService TItem Matcher).
Implicit Types (current : option (FilterUnion Matcher)).
Implicit Types (params : Grid.GridDataProviderParams).

(** The two data providers differ in nothing but the size. *)
Lemma dataProviderJS_events service cacheSize current first params :
  let js := dataProviderJS service cacheSize current first params in
  let exact := dataProvider service cacheSize current first params in
  js.1 = exact.1
  ∧ serviceCalls js.2 = serviceCalls exact.2
  ∧ (callbacks js.2).*1 = (callbacks exact.2).*1.
Proof.
  unfold dataProviderJS, dataProvider.
  destruct (service _ current); [|done]. by destruct first.
Qed.

Lemma dataProviderJS_serviceCalls service cacheSize current first params :
  serviceCalls (dataProviderJS service cacheSize current first params).2
  = [(requestOf params, current)].
Proof.
  destruct (dataProviderJS_events service cacheSize current first params)
    as (_ & -> & _).
  apply dataProvider_serviceCalls.
Qed.

Lemma dataProviderJS_callbacks_resolved service cacheSize current first params items :
  service (requestOf params) current = Resolved items →
  callbacks (dataProviderJS service cacheSize current first params).2
  = [(items, reportedSizeJS cacheSize (Grid.page params) (Grid.pageSize params) items)].
Proof.
  intros Hs. unfold dataProviderJS. fold (requestOf params). rewrite Hs.
  destruct first; reflexivity.
Qed.

(** The sizes of a page that is not over-full, when no value exceeds
    [2^53]: the roundings do nothing. *)
Lemma reportedSizeJS_exact cacheSize pageNumber pageSize (items : list TItem) :
  0 ≤ pageNumber < 2 ^ 53 → 0 ≤ pageSize → (pageNumber + 1) * pageSize < 2 ^ 53 →
  Z.of_nat (length items) ≤ pageSize →
  reportedSizeJS cacheSize pageNumber pageSize items
  = reportedSize cacheSize pageNumber pageSize items.
Proof.
  change (2 ^ 53) with 9007199254740992. intros Hp Hps Hfull Hn.
  assert (0 ≤ pageNumber * pageSize ≤ (pageNumber + 1) * pageSize) by nia.
  unfold reportedSizeJS, reportedSize, JsNumber.add, JsNumber.mul.
  rewrite (roundToDouble_exact (pageNumber + 1))
    by (change (2 ^ 53) with 9007199254740992; lia).
  rewrite (roundToDouble_exact ((pageNumber + 1) * pageSize))
    by (change (2 ^ 53) with 9007199254740992; lia).
  rewrite (roundToDouble_exact ((pageNumber + 1) * pageSize + 1))
    by (change (2 ^ 53) with 9007199254740992; lia).
  rewrite (roundToDouble_exact (pageNumber * pageSize))
    by (change (2 ^ 53) with 9007199254740992; lia).
  destruct (Z.eqb_spec (Z.of_nat (length items)) pageSize); [done|].
  rewrite roundToDouble_exact; [done|].
  change (2 ^ 53) with 9007199254740992. lia.
Qed.

(** C8.  The size reported with a page, for a page number and a page size
    that are not negative and with [pageNumber] and
    [(pageNumber + 1) * pageSize] below [2^53]: a short page reports
    [pageNumber * pageSize + length]; a full page reports
    [(pageNumber + 1) * pageSize + 1], unless the cached size of the grid is
    defined and larger, in which case no size is reported; so a full page
    never reports a size below the cached one. *)
Theorem dataProviderJS_reported_size
    service cacheSize current first params req items :
  let evs := (dataProviderJS service cacheSize current first params).2 in
  let n := Z.of_nat (length items) in
  let pageNumber := Grid.page params in
  let pageSize := Grid.pageSize params in
  0 ≤ pageNumber < 2 ^ 53 → 0 ≤ pageSize → (pageNumber + 1) * pageSize < 2 ^ 53 →
  serviceCalls evs = [(req, current)] →
  service req current = Resolved items →
  ∃ size,
    callbacks evs = [(items, size)]
    ∧ (n < pageSize → size = Some (pageNumber * pageSize + n))
    ∧ (n = pageSize →
       size = match cacheSize with
              | Some cached =>
                  if decide ((pageNumber + 1) * pageSize + 1 < cached)
                  then None else Some ((pageNumber + 1) * pageSize + 1)
              | None => Some ((pageNumber + 1) * pageSize + 1)
              end)
    ∧ (n = pageSize → ∀ s cached, size = Some s → cacheSize = Some cached → cached ≤ s).
Proof.
  intros evs n pageNumber pageSize Hp Hps Hbound Hcalls Hs. subst evs.
  rewrite dataProviderJS_serviceCalls in Hcalls.
  assert (req = requestOf params) as -> by congruence.
  exists (reportedSizeJS cacheSize pageNumber pageSize items).
  split; [by apply dataProviderJS_callbacks_resolved|].
  assert (n ≤ pageSize →
          reportedSizeJS cacheSize pageNumber pageSize items
          = reportedSize cacheSize pageNumber pageSize items) as Hexact.
  { intros Hn. by apply reportedSizeJS_exact. }
  unfold reportedSize in Hexact. fold n in Hexact.
  split; [|split].
  - intros Hlt. rewrite Hexact by lia.
    destruct (Z.eqb_spec n pageSize); [lia|done].
  - intros Heq. rewrite Hexact by lia. rewrite (proj2 (Z.eqb_eq _ _) Heq).
    destruct cacheSize as [c|]; [|done].
    destruct (Z.ltb_spec ((pageNumber + 1) * pageSize + 1) c); case_decide; done || lia.
  - intros Heq s c. rewrite Hexact by lia. rewrite (proj2 (Z.eqb_eq _ _) Heq).
    intros Hsize ->.
    destruct (Z.ltb_spec ((pageNumber + 1) * pageSize + 1) c); [done|].
    injection Hsize as <-. lia.
Qed.

End ReportedSizeFacts.

(** A full first page of two rows, the grid having cached a size of ten:
    no size is reported. *)
Lemma dataProviderJS_reported_size_witness :
  ∃ size,
    callbacks (dataProviderJS Fixtures.twoPersons (Some 10) None true
                 Fixtures.firstPage).2
    = [(["Jane"; "John"]%string, size)] ∧ size = None.
Proof.
  destruct (dataProviderJS_reported_size Fixtures.twoPersons (Some 10) None true
              Fixtures.firstPage (requestOf Fixtures.firstPage) ["Jane"; "John"]%string)
    as (size & Hcb & _ & Hfull & _); [done|done|done|reflexivity|reflexivity|].
  exists size. split; [exact Hcb|]. by rewrite Hfull.
Defined.

(** Without the bound the formula of a full page fails: for the page
    [2^53 - 1] of one row, a full page and no cached size, the size
    reported is [2^53], not [(pageNumber + 1) * pageSize + 1]. *)
Lemma reported_size_beyond_2_53 :
  callbacks
    (dataProviderJS MoreFixtures.onePerson None None false MoreFixtures.farPage).2
  = [(["Jane"]%string, Some 9007199254740992)]
  ∧ Z.of_nat (length ["Jane"%string]) = Grid.pageSize MoreFixtures.farPage
  ∧ Some 9007199254740992
    ≠ Some ((Grid.page MoreFixtures.farPage + 1)
            * Grid.pageSize MoreFixtures.farPage + 1).
Proof. split_and!; [reflexivity|reflexivity|discriminate]. Qed.

End ReportedSizeFacts.

(** ** The header filters *)

Module HeaderFilterFacts.
Import AutoGrid.

(** [findIndex] finds the first element that satisfies the predicate. *)
Lemma findIndexFrom_cases {A} (p : A → bool) (l : list A) (i : Z) :
  (findIndexFrom p l i = -1 ∧ Forall (λ x, p x = false) l)
  ∨ (∃ l1 x l2, l = l1 ++ x :: l2
       ∧ findIndexFrom p l i = i + Z.of_nat (length l1)
       ∧ p x = true ∧ Forall (λ y, p y = false) l1).
Proof.
  revert i. induction l as [|x l IH]; intros i; simpl.
  - left. by split.
  - destruct (p x) eqn:Hx.
    + right. exists [], x, l. simpl. split_and!; [done|lia|done|constructor].
    + destruct (IH (i + 1)) as [[Hnone Hall]|(l1 & y & l2 & -> & Hidx & Hy & Hall)].
      * left. split; [done|]. by constructor.
      * right. exists (x :: l1), y, l2. simpl.
        split_and!; [done|lia|done|by constructor].
Qed.

Lemma findIndex_cases {A} (p : A → bool) (l : list A) :
  (findIndex p l = -1 ∧ Forall (λ x, p x = false) l)
  ∨ (∃ l1 x l2, l = l1 ++ x :: l2
       ∧ findIndex p l = Z.of_nat (length l1)
       ∧ p x = true ∧ Forall (λ y, p y = false) l1).
Proof.
  unfold findIndex.
  destruct (findIndexFrom_cases p l 0) as [?|(l1 & x & l2 & ? & ? & ? & ?)]; [by left|].
  right. exists l1, x, l2. split_and!; done || lia.
Qed.

Lemma filter_all {A} (P : A → Prop) `{!∀ x, Decision (P x)} (l : list A) :
  Forall P l → filter P l = l.
Proof.
  induction 1 as [|x l Hx _ IH]; [done|].
  by rewrite filter_cons_True, IH.
Qed.

Section HeaderFilterFacts.

Context {Matcher : Type}.

Implicit Types (cs before after : list (FilterUnion Matcher)).
Implicit Types (f old : FilterUnion Matcher).
Implicit Types (pf : PropertyStringFilter Matcher).
Implicit Types (st : State Matcher).

Lemma hasPropertyId_true id f :
  hasPropertyId id f = true ↔ ∃ g, f = PropertyString g ∧ propertyId g = id.
Proof.
  destruct f as [| |g]; simpl.
  - split; [done|]. by intros (g & ? & _).
  - split; [done|]. by intros (g & ? & _).
  - rewrite bool_decide_eq_true. split; [by exists g|]. by intros (? & [= <-] & ?).
Qed.

Lemma elem_of_propertyIds id cs :
  id ∈ propertyIds cs ↔ ∃ f, f ∈ cs ∧ hasPropertyId id f = true.
Proof.
  unfold propertyIds. rewrite list_elem_of_omap. split.
  - intros (f & Hf & Hid). exists f. split; [done|].
    destruct f; simplify_eq/=. by apply bool_decide_eq_true.
  - intros (f & Hf & (g & -> & <-)%hasPropertyId_true). by exists (PropertyString g).
Qed.

Lemma not_elem_of_propertyIds id cs :
  id ∉ propertyIds cs ↔ Forall (λ f, hasPropertyId id f = false) cs.
Proof.
  rewrite elem_of_propertyIds, Forall_forall. split.
  - intros Hno f Hf. destruct (hasPropertyId id f) eqn:Hid; [|done].
    destruct Hno. eauto.
  - intros Hall (f & Hf & Hid). specialize (Hall f Hf). congruence.
Qed.

Lemma propertyIds_app cs1 cs2 :
  propertyIds (cs1 ++ cs2) = propertyIds cs1 ++ propertyIds cs2.
Proof. apply omap_app. Qed.

(** The four ways a call of the setter can go. *)
Lemma setHeaderPropertyFilter_cases pf st :
  let cs := headerChildren st in
  let id := propertyId pf in
  (filterValue pf = ""%string ∧ (id ∉ propertyIds cs)
     ∧ setHeaderPropertyFilter pf st = st)
  ∨ (filterValue pf = ""%string ∧ ∃ before old after,
       cs = before ++ old :: after ∧ hasPropertyId id old = true
       ∧ Forall (λ f, hasPropertyId id f = false) before
       ∧ setHeaderPropertyFilter pf st
         = changed (writeChildren (before ++ after) st))
  ∨ (filterValue pf ≠ ""%string ∧ ∃ before old after,
       cs = before ++ old :: after ∧ hasPropertyId id old = true
       ∧ Forall (λ f, hasPropertyId id f = false) before
       ∧ setHeaderPropertyFilter pf st
         = changed
             (writeChildren (before ++ PropertyString pf :: after) st))
  ∨ (filterValue pf ≠ ""%string ∧ (id ∉ propertyIds cs)
     ∧ setHeaderPropertyFilter pf st
       = changed (writeChildren (cs ++ [PropertyString pf]) st)).
Proof.
  intros cs id. unfold setHeaderPropertyFilter. fold cs id.
  destruct (findIndex_cases (hasPropertyId id) cs)
    as [[-> Hall]|(l1 & x & l2 & Hcs & -> & Hx & Hall)].
  - apply not_elem_of_propertyIds in Hall.
    case_decide; [left|do 3 right]; done.
  - rewrite (proj2 (Z.leb_le 0 _)) by lia. rewrite Nat2Z.id.
    case_decide.
    + right. left. split; [done|]. exists l1, x, l2. split_and!; try done.
      by rewrite Hcs, delete_middle.
    + do 2 right. left. split; [done|]. exists l1, x, l2. split_and!; try done.
      rewrite Hcs. by rewrite insert_app_r_alt, Nat.sub_diag by lia.
Qed.

(** The invariant is kept by each way of changing the array. *)
Lemma headerFilterInvariant_nil : headerFilterInvariant (Matcher:=Matcher) [].
Proof. split; [constructor|]. apply NoDup_nil_2. Qed.

Lemma headerFilterInvariant_delete before old after :
  headerFilterInvariant (before ++ old :: after) →
  headerFilterInvariant (before ++ after).
Proof.
  intros [Hall Hnd]. split.
  - apply Forall_app in Hall as [? Hall]. apply Forall_cons in Hall as [_ ?].
    by apply Forall_app.
  - eapply sublist_NoDup; [exact Hnd|]. unfold propertyIds.
    rewrite !omap_app. apply sublist_app; [done|].
    simpl. destruct old; [done..|by apply sublist_cons].
Qed.

Lemma headerFilterInvariant_replace before old after pf :
  hasPropertyId (propertyId pf) old = true → filterValue pf ≠ ""%string →
  headerFilterInvariant (before ++ old :: after) →
  headerFilterInvariant (before ++ PropertyString pf :: after).
Proof.
  intros (g & -> & Hid)%hasPropertyId_true Hval [Hall Hnd]. split.
  - apply Forall_app in Hall as [? Hall]. apply Forall_cons in Hall as [_ ?].
    apply Forall_app. split; [done|]. by constructor.
  - revert Hnd. unfold propertyIds. rewrite !omap_app. simpl. by rewrite Hid.
Qed.

Lemma headerFilterInvariant_push cs pf :
  propertyId pf ∉ propertyIds cs → filterValue pf ≠ ""%string →
  headerFilterInvariant cs → headerFilterInvariant (cs ++ [PropertyString pf]).
Proof.
  intros Hnew Hval [Hall Hnd]. split.
  - apply Forall_app. split; [done|]. by repeat constructor.
  - rewrite propertyIds_app. simpl. apply NoDup_app. split_and!; [done| |].
    + intros id Hid ->%list_elem_of_singleton. done.
    + apply NoDup_singleton.
Qed.

(** With one entry per property, deleting the first entry of a property
    deletes every entry of it. *)
Lemma delete_first_is_filter id before old after :
  NoDup (propertyIds (before ++ old :: after)) →
  hasPropertyId id old = true →
  Forall (λ f, hasPropertyId id f = false) before →
  before ++ after = filter (λ f, hasPropertyId id f = false) (before ++ old :: after).
Proof.
  intros Hnd Hx Hl1. rewrite filter_app, filter_cons_False by congruence.
  assert (Forall (λ f, hasPropertyId id f = false) after) as Hl2.
  { apply not_elem_of_propertyIds. revert Hnd. rewrite propertyIds_app.
    apply hasPropertyId_true in Hx as (g & -> & <-). simpl.
    rewrite NoDup_app, NoDup_cons. by intros (_ & _ & ? & _). }
  f_equal; symmetry; by apply filter_all.
Qed.

(** What a changing call leaves in the state. *)
Lemma headerChildren_changed cs st :
  headerChildren (changed (writeChildren cs st)) = cs.
Proof. unfold headerChildren. simpl. apply lookup_total_insert_eq. Qed.

Lemma arrays_changed cs st l :
  arrays (changed (writeChildren cs st)) !!! l
  = if decide (children (internalFilter st) = l) then cs else arrays st !!! l.
Proof. simpl. apply lookup_total_insert. Qed.

Lemma storeInvariant_changed cs st :
  headerFilterInvariant cs → storeInvariant st →
  storeInvariant (changed (writeChildren cs st)).
Proof.
  intros Hcs Hst l. rewrite arrays_changed. case_decide; [done|apply Hst].
Qed.

Lemma storeInvariant_initial : storeInvariant (Matcher:=Matcher) initial.
Proof.
  intros l. unfold initial. simpl.
  destruct (decide (l = 0%nat)) as [->|Hne].
  - rewrite lookup_total_singleton_eq. apply headerFilterInvariant_nil.
  - rewrite lookup_total_singleton_ne by done. apply headerFilterInvariant_nil.
Qed.

Lemma storeInvariant_setHeaderPropertyFilter pf st :
  storeInvariant st → storeInvariant (setHeaderPropertyFilter pf st).
Proof.
  intros Hst. pose proof (Hst (children (internalFilter st))) as Hcs.
  fold (headerChildren st) in Hcs.
  destruct (setHeaderPropertyFilter_cases pf st)
    as [(_ & _ & ->)|[(_ & b & o & a & Heq & Ho & _ & ->)
       |[(Hv & b & o & a & Heq & Ho & _ & ->)|(Hv & Hnew & ->)]]];
    [done|apply storeInvariant_changed; [|done]..].
  - rewrite Heq in Hcs. by eapply headerFilterInvariant_delete.
  - rewrite Heq in Hcs. by eapply headerFilterInvariant_replace.
  - by apply headerFilterInvariant_push.
Qed.

Lemma arrays_render mounted props st l :
  arrays (render mounted props st).1 !!! l = arrays st !!! l
  ∨ arrays (render mounted props st).1 !!! l = [].
Proof.
  unfold render, filterEffect, noHeaderFiltersEffect.
  repeat (case_match; simpl in *; simplify_eq/=); auto;
    destruct (decide (nextId st = l)) as [->|Hne];
    rewrite ?lookup_total_insert_eq, ?lookup_total_insert_ne by done; auto.
Qed.

Lemma storeInvariant_render mounted props st :
  storeInvariant st → storeInvariant (render mounted props st).1.
Proof.
  intros Hst l. destruct (arrays_render mounted props st l) as [->| ->];
    [apply Hst|apply headerFilterInvariant_nil].
Qed.

Lemma reachable_storeInvariant st : reachable st → storeInvariant st.
Proof.
  induction 1;
    auto using storeInvariant_initial, storeInvariant_render,
      storeInvariant_setHeaderPropertyFilter.
Qed.

(** C9.  In every state the component can reach, the array of the internal
    header filter holds property filters only, at most one per property
    and none with an empty value, before and after a call of the setter;
    a call with an empty value deletes the entry of the property, a call
    with a value for a filtered property replaces that entry where it
    stands, and a call with a value for a new property appends an entry. *)
Theorem header_filter_children_invariant pf st :
  reachable st →
  let cs := headerChildren st in
  let cs' := headerChildren (setHeaderPropertyFilter pf st) in
  let id := propertyId pf in
  headerFilterInvariant cs
  ∧ headerFilterInvariant cs'
  ∧ (filterValue pf = ""%string →
     cs' = filter (λ f, hasPropertyId id f = false) cs)
  ∧ (filterValue pf ≠ ""%string → id ∈ propertyIds cs →
     ∃ before old after,
       cs = before ++ old :: after ∧ hasPropertyId id old = true
       ∧ cs' = before ++ PropertyString pf :: after)
  ∧ (filterValue pf ≠ ""%string → id ∉ propertyIds cs →
     cs' = cs ++ [PropertyString pf]).
Proof.
  intros Hreach cs cs' id. subst cs cs' id.
  pose proof (reachable_storeInvariant _ Hreach) as Hst.
  pose proof (Hst (children (internalFilter st))) as Hcs. fold (headerChildren st) in Hcs.
  split; [done|]. split.
  { apply (storeInvariant_setHeaderPropertyFilter pf) in Hst.
    apply (Hst (children (internalFilter (setHeaderPropertyFilter pf st)))). }
  destruct (setHeaderPropertyFilter_cases pf st)
    as [(Hv & Hnew & ->)|[(Hv & b & o & a & Heq & Ho & Hb & ->)
       |[(Hv & b & o & a & Heq & Ho & Hb & ->)|(Hv & Hnew & ->)]]];
    rewrite ?headerChildren_changed.
  - split_and!; [|done..]. intros _. symmetry. apply filter_all.
    by apply not_elem_of_propertyIds.
  - split_and!; [|done..]. intros _. rewrite Heq. apply delete_first_is_filter; try done.
    rewrite <-Heq. apply Hcs.
  - split_and!; [done| |].
    + intros _ _. by exists b, o, a.
    + intros _ []. apply elem_of_propertyIds. exists o. split; [|done].
      rewrite Heq. apply elem_of_app. right. by left.
  - split_and!; done.
Qed.

(** What one render does to the hooks. *)
Lemma render_hooks props st :
  let st' := (render true props st).1 in
  let run :=
    filterDepsChanged (rendered st) (internalFilter st) props (internalFilter st') in
  internalFilter st' = default (internalFilter st) (queuedInternalFilter st)
  ∧ rendered st' = Some props
  ∧ ref st' = true
  ∧ (nextId st ≤ nextId st')%nat
  ∧ (∀ o, queuedInternalFilter st' = Some o →
       (nextId st ≤ objectId o < nextId st')%nat)
  ∧ dataProviderFilter st'
    = (if run then Some (effectiveFilter props st') else dataProviderFilter st)
  ∧ (render true props st).2 = (if run then [ClearCache] else []).
Proof.
  unfold render, filterEffect, noHeaderFiltersEffect, effectiveFilter.
  destruct (noHeaderFiltersChanged (rendered st) props);
    destruct (noHeaderFilters props) as [[|]|];
    destruct (filterDepsChanged (rendered st) (internalFilter st) props
                (default (internalFilter st) (queuedInternalFilter st))) eqn:Hrun;
    simpl; rewrite ?Hrun; simpl.
  all: split_and!.
  all: try done. all: try lia.
  all: intros o [= <-]; simpl; lia.
Qed.

(** A render with the props of the previous one allocates nothing. *)
Lemma render_again_arrays props st :
  rendered st = Some props →
  arrays (render true props st).1 = arrays st
  ∧ queuedInternalFilter (render true props st).1 = None.
Proof.
  intros Hprev. unfold render, filterEffect. rewrite Hprev. simpl.
  rewrite bool_decide_eq_true_2 by done. simpl.
  by case_match.
Qed.

Lemma refInvariant_initial : refInvariant (Matcher:=Matcher) initial.
Proof. split_and!; simpl; [lia|done|done]. Qed.

Lemma refInvariant_changed cs st :
  refInvariant st → refInvariant (changed (writeChildren cs st)).
Proof.
  intros (Hlt & Hq & Href). split_and!; simpl.
  - lia.
  - intros o [= <-]. simpl. lia.
  - exact Href.
Qed.

Lemma refInvariant_setHeaderPropertyFilter pf st :
  refInvariant st → refInvariant (setHeaderPropertyFilter pf st).
Proof.
  intros Hst.
  destruct (setHeaderPropertyFilter_cases pf st)
    as [(_ & _ & ->)|[(_ & b & o & a & _ & _ & _ & ->)
       |[(_ & b & o & a & _ & _ & _ & ->)|(_ & _ & ->)]]];
    auto using refInvariant_changed.
Qed.

Lemma refInvariant_render props st :
  refInvariant st → refInvariant (render true props st).1.
Proof.
  intros (Hlt & Hq & Href).
  destruct (render_hooks props st) as (Hint & Hren & _ & Hnext & Hqueued & Hdpf & _).
  assert (objectId (internalFilter (render true props st).1) < nextId st)%nat as Hnew.
  { rewrite Hint. destruct (queuedInternalFilter st) as [o|] eqn:Ho; simpl; [|done].
    specialize (Hq o eq_refl). lia. }
  split_and!.
  - lia.
  - intros o Ho. specialize (Hqueued o Ho). lia.
  - intros props' Hprops' Hexp. rewrite Hren in Hprops'. injection Hprops' as <-.
    rewrite Hdpf. clear Hdpf.
    destruct (filterDepsChanged _ _ _ _) eqn:Hrun.
    + unfold effectiveFilter. by rewrite Hexp.
    + unfold filterDepsChanged in Hrun.
      destruct (rendered st) as [prev|] eqn:Hprev; [|done].
      apply orb_false_elim in Hrun as [Hrun _].
      apply orb_false_elim in Hrun as [Hext Hobj].
      apply negb_false_iff in Hext, Hobj.
      assert (experimentalFilter prev = None) as Hprevexp.
      { rewrite Hexp in Hext. by destruct (experimentalFilter prev). }
      rewrite (Href prev eq_refl Hprevexp). do 2 f_equal.
      rewrite Hint. destruct (queuedInternalFilter st) as [o|] eqn:Ho; simpl; [|done].
      apply bool_decide_eq_true in Hobj. rewrite Hint in Hobj. simpl in Hobj.
      specialize (Hq o eq_refl). lia.
Qed.

Lemma reachable_refInvariant st : reachable st → refInvariant st.
Proof.
  induction 1;
    auto using refInvariant_initial, refInvariant_render,
      refInvariant_setHeaderPropertyFilter.
Qed.

(** Without [experimentalFilter], the data provider reads the array of the
    header filter of the latest render. *)
Lemma reachable_currentFilter props st :
  reachable st → rendered st = Some props → experimentalFilter props = None →
  currentFilter st = Some (AndFilter (headerChildren st)).
Proof.
  intros (_ & _ & Href)%reachable_refInvariant Hprops Hexp.
  unfold currentFilter. by rewrite (Href props Hprops Hexp).
Qed.

Lemma rendered_setHeaderPropertyFilter pf st :
  rendered (setHeaderPropertyFilter pf st) = rendered st.
Proof.
  destruct (setHeaderPropertyFilter_cases pf st)
    as [(_ & _ & ->)|[(_ & b & o & a & _ & _ & _ & ->)
       |[(_ & b & o & a & _ & _ & _ & ->)|(_ & _ & ->)]]]; done.
Qed.

Lemma dataProviderFilter_setHeaderPropertyFilter pf st :
  dataProviderFilter (setHeaderPropertyFilter pf st) = dataProviderFilter st.
Proof.
  destruct (setHeaderPropertyFilter_cases pf st)
    as [(_ & _ & ->)|[(_ & b & o & a & _ & _ & _ & ->)
       |[(_ & b & o & a & _ & _ & _ & ->)|(_ & _ & ->)]]]; done.
Qed.

Lemma reachable_afterRender again props st :
  reachable st → reachable (afterRender again props st).
Proof. destruct again; simpl; [apply reachable_render|done]. Qed.

Lemma rendered_afterRender again props st :
  rendered st = Some props → rendered (afterRender again props st) = Some props.
Proof.
  destruct again; simpl; [|done]. intros _.
  by destruct (render_hooks props st) as (_ & -> & _).
Qed.

(** A render after a changing call of the setter shows the array the call
    wrote. *)
Lemma headerChildren_afterRender again props cs st :
  rendered st = Some props →
  headerChildren (afterRender again props (changed (writeChildren cs st))) = cs.
Proof.
  intros Hprops. destruct again; simpl; [|apply headerChildren_changed].
  set (st' := changed (writeChildren cs st)).
  assert (rendered st' = Some props) as Hprops' by done.
  destruct (render_hooks props st') as (Hint & _).
  destruct (render_again_arrays props st' Hprops') as (Harr & _).
  unfold headerChildren. rewrite Hint, Harr. simpl.
  apply lookup_total_insert_eq.
Qed.

(** The model allocates like JavaScript does: a new array never takes the
    place of one in use. *)
Lemma allocationInvariant_changed cs st :
  allocationInvariant st → allocationInvariant (changed (writeChildren cs st)).
Proof.
  intros (Hint & Hq & Hfree). split_and!; simpl.
  - lia.
  - intros o [= <-]. simpl. lia.
  - intros l Hl. rewrite lookup_insert_ne by lia. apply Hfree. lia.
Qed.

Lemma allocationInvariant_render mounted props st :
  allocationInvariant st → allocationInvariant (render mounted props st).1.
Proof.
  intros (Hint & Hq & Hfree).
  assert (children (default (internalFilter st) (queuedInternalFilter st)) < nextId st)%nat
    as Hnew.
  { destruct (queuedInternalFilter st) as [o|]; simpl; auto. }
  unfold render, filterEffect, noHeaderFiltersEffect.
  destruct (noHeaderFiltersChanged (rendered st) props);
    destruct (noHeaderFilters props) as [[|]|];
    destruct (filterDepsChanged _ _ _ _); destruct mounted; simpl.
  all: split_and!; simpl; try done; try lia.
  all: try (intros o [= <-]; simpl; lia).
  all: intros l Hl; rewrite ?lookup_insert_ne by lia; apply Hfree; lia.
Qed.

Lemma reachable_allocationInvariant st : reachable st → allocationInvariant st.
Proof.
  induction 1 as [|props st _ IH|pf st _ IH].
  - split_and!; simpl; [lia|done|].
    intros l Hl. apply lookup_singleton_ne. lia.
  - by apply allocationInvariant_render.
  - destruct (setHeaderPropertyFilter_cases pf st)
      as [(_ & _ & ->)|[(_ & b & o & a & _ & _ & _ & ->)
         |[(_ & b & o & a & _ & _ & _ & ->)|(_ & _ & ->)]]];
      auto using allocationInvariant_changed.
Qed.

(** Without a grid element the effect on the filter does nothing. *)
Lemma render_without_grid props st :
  dataProviderFilter (render false props st).1 = dataProviderFilter st
  ∧ (render false props st).2 = [].
Proof.
  unfold render, filterEffect, noHeaderFiltersEffect.
  destruct (noHeaderFiltersChanged (rendered st) props);
    destruct (noHeaderFilters props) as [[|]|];
    destruct (filterDepsChanged _ _ _ _); done.
Qed.

Section Requests.

Context {TItem : Type}.

Implicit Types (service : ListService TItem Matcher).

Lemma request_serviceCalls service first cacheSize params st :
  serviceCalls (request service first cacheSize params st).2
  = [(requestOf params, currentFilter st)].
Proof. apply DataProviderFacts.dataProvider_serviceCalls. Qed.

(** C3.  When a render of the mounted component finds that
    [experimentalFilter], the internal header filter or [refreshTrigger]
    changed, the filter reference of the data provider is set to
    [experimentalFilter] when that is defined and to the internal header
    filter otherwise, and the cache of the grid is cleared; the reference
    stays as it is through calls of the header-filter setter and through
    renders that find no such change, and every [service.list] call is given
    what the reference points to at the time of the call. *)
Theorem filter_effect_sets_data_provider_filter prev props st :
  rendered st = Some prev →
  (sameExternal (experimentalFilter prev) (experimentalFilter props) = false
   ∨ (∃ o, queuedInternalFilter st = Some o
           ∧ objectId o ≠ objectId (internalFilter st))
   ∨ effectiveRefreshTrigger prev ≠ effectiveRefreshTrigger props) →
  let st' := (render true props st).1 in
  dataProviderFilter st'
  = Some (match experimentalFilter props with
          | Some e => Experimental e
          | None => HeaderFilters (internalFilter st')
          end)
  ∧ (render true props st).2 = [ClearCache]
  ∧ currentFilter st'
    = Some (match experimentalFilter props with
            | Some e => externalValue e
            | None => AndFilter (headerChildren st')
            end)
  ∧ (∀ pf, dataProviderFilter (setHeaderPropertyFilter pf st') = dataProviderFilter st')
  ∧ (∀ props' st'',
       dataProviderFilter st'' = dataProviderFilter st' →
       filterDepsChanged (rendered st'') (internalFilter st'') props'
         (internalFilter (render true props' st'').1) = false →
       dataProviderFilter (render true props' st'').1 = dataProviderFilter st')
  ∧ (∀ service first cacheSize params st0,
       serviceCalls (request service first cacheSize params st0).2
       = [(requestOf params, currentFilter st0)]).
Proof.
  intros Hprev Hchange st'.
  destruct (render_hooks props st) as (Hint & _ & _ & _ & _ & Hdpf & Hcalls).
  fold st' in Hint, Hdpf, Hcalls.
  assert (filterDepsChanged (rendered st) (internalFilter st) props (internalFilter st')
          = true) as Hrun.
  { rewrite Hprev. unfold filterDepsChanged.
    destruct Hchange as [->|[(o & Ho & Hne)| Hne]].
    - done.
    - rewrite Hint, Ho. simpl. unfold sameObject.
      rewrite (bool_decide_eq_false_2 _) by congruence.
      by rewrite orb_true_r.
    - rewrite (proj2 (Z.eqb_neq _ _) Hne). by rewrite orb_true_r. }
  rewrite Hrun in Hdpf, Hcalls.
  assert (dataProviderFilter st'
          = Some (match experimentalFilter props with
                  | Some e => Experimental e
                  | None => HeaderFilters (internalFilter st')
                  end)) as Hset.
  { rewrite Hdpf. unfold effectiveFilter. by destruct (experimentalFilter props). }
  split_and!.
  - exact Hset.
  - exact Hcalls.
  - unfold currentFilter. rewrite Hset. by destruct (experimentalFilter props).
  - intros pf. apply dataProviderFilter_setHeaderPropertyFilter.
  - intros props' st'' Hsame Hno.
    destruct (render_hooks props' st'') as (_ & _ & _ & _ & _ & Hdpf' & _).
    rewrite Hdpf', Hno. exact Hsame.
  - intros. apply request_serviceCalls.
Qed.

(** C4.  With no [experimentalFilter]: after the header filter of a
    property is applied with a value that is not empty, a request makes
    [service.list] receive an and-filter among whose children is the
    property filter with that property and value; after the empty value is
    applied for the property, the and-filter of the next request has no
    child for the property.  This holds whether or not React rendered the
    component between the call of the setter and the request. *)
Theorem header_filter_reaches_service
    service first cacheSize params service' first' cacheSize' params'
    props st id m v m' (again again' : bool) :
  reachable st → rendered st = Some props → experimentalFilter props = None →
  v ≠ ""%string →
  let propertyFilter := {| propertyId := id; matcher := m; filterValue := v |} in
  let cleared := {| propertyId := id; matcher := m'; filterValue := "" |} in
  let st1 := afterRender again props (setHeaderPropertyFilter propertyFilter st) in
  let st2 := afterRender again' props (setHeaderPropertyFilter cleared st1) in
  (∃ cs,
     serviceCalls (request service first cacheSize params st1).2
     = [(requestOf params, Some (AndFilter cs))]
     ∧ PropertyString propertyFilter ∈ cs)
  ∧ (∃ cs,
     serviceCalls (request service' first' cacheSize' params' st2).2
     = [(requestOf params', Some (AndFilter cs))]
     ∧ (PropertyString propertyFilter ∉ cs)
     ∧ ∀ f, f ∈ cs → hasPropertyId id f = false).
Proof.
  intros Hreach Hprops Hexp Hv pf cleared st1 st2.
  (* the first call changes the array *)
  assert (∃ cs1, setHeaderPropertyFilter pf st = changed (writeChildren cs1 st)
                 ∧ PropertyString pf ∈ cs1) as (cs1 & Hset1 & Hin1).
  { destruct (setHeaderPropertyFilter_cases pf st)
      as [(Hv' & _)|[(Hv' & _)|[(_ & b & o & a & _ & _ & _ & ->)|(_ & _ & ->)]]];
      [done|done|..].
    - eexists. split; [done|]. apply elem_of_app. right. by left.
    - eexists. split; [done|]. apply elem_of_app. right. by left. }
  assert (reachable st1) as Hreach1.
  { by apply reachable_afterRender, reachable_setHeaderPropertyFilter. }
  assert (rendered st1 = Some props) as Hprops1.
  { apply rendered_afterRender. by rewrite rendered_setHeaderPropertyFilter. }
  assert (headerChildren st1 = cs1) as Hcs1.
  { subst st1. rewrite Hset1. by apply headerChildren_afterRender. }
  split.
  { exists cs1. split; [|done].
    rewrite request_serviceCalls.
    by rewrite (reachable_currentFilter props st1), Hcs1. }
  (* the second call finds the entry and deletes it *)
  pose proof (reachable_storeInvariant _ Hreach1 (children (internalFilter st1)))
    as [_ Hnd]. fold (headerChildren st1) in Hnd.
  assert (∃ cs2, setHeaderPropertyFilter cleared st1 = changed (writeChildren cs2 st1)
                 ∧ cs2 = filter (λ f, hasPropertyId id f = false) cs1)
    as (cs2 & Hset2 & Hcs2).
  { destruct (setHeaderPropertyFilter_cases cleared st1)
      as [(_ & Hnew & _)|[(_ & b & o & a & Heq & Ho & Hb & ->)|[(Hv' & _)|(Hv' & _)]]];
      [|..|done|done].
    - destruct Hnew. apply elem_of_propertyIds. exists (PropertyString pf).
      rewrite Hcs1. split; [done|]. simpl. by apply bool_decide_eq_true.
    - eexists. split; [done|]. rewrite <-Hcs1, Heq.
      apply delete_first_is_filter; [|done..]. by rewrite <-Heq. }
  assert (reachable st2) as Hreach2.
  { by apply reachable_afterRender, reachable_setHeaderPropertyFilter. }
  assert (rendered st2 = Some props) as Hprops2.
  { apply rendered_afterRender. by rewrite rendered_setHeaderPropertyFilter. }
  assert (headerChildren st2 = cs2) as Hhc2.
  { subst st2. rewrite Hset2. by apply headerChildren_afterRender. }
  exists cs2. split_and!.
  - rewrite request_serviceCalls.
    by rewrite (reachable_currentFilter props st2), Hhc2.
  - rewrite Hcs2. intros [Hno _]%list_elem_of_filter.
    subst pf. simpl in Hno. apply bool_decide_eq_false in Hno. by destruct Hno.
  - rewrite Hcs2. by intros f [? _]%list_elem_of_filter.
Qed.

End Requests.

End HeaderFilterFacts.
End HeaderFilterFacts.

(** ** Instances on the fixtures *)

Module HeaderFilterExamples.
Import AutoGrid Fixtures HeaderFilterFacts.

Lemma reachable_mounted : reachable mounted.
Proof. apply reachable_render, reachable_initial. Qed.

(** Typing into the first-name field of a freshly mounted grid appends the
    filter. *)
Lemma header_filter_children_invariant_witness :
  reachable mounted
  ∧ headerChildren (setHeaderPropertyFilter firstNameFilter mounted)
    = [PropertyString firstNameFilter].
Proof.
  split; [apply reachable_mounted|].
  destruct (header_filter_children_invariant firstNameFilter mounted reachable_mounted)
    as (_ & _ & _ & _ & Hpush).
  rewrite Hpush; [reflexivity|discriminate|].
  change (headerChildren mounted) with (@nil (FilterUnion TestMatcher)).
  apply not_elem_of_nil.
Defined.

(** Passing [refreshTrigger={1}] to the mounted grid clears the cache. *)
Lemma filter_effect_sets_data_provider_filter_witness :
  rendered mounted = Some plainProps
  ∧ (render true refreshedProps mounted).2 = [ClearCache]
  ∧ currentFilter (render true refreshedProps mounted).1 = Some (AndFilter []).
Proof.
  split; [reflexivity|].
  destruct (filter_effect_sets_data_provider_filter (TItem:=string)
              plainProps refreshedProps mounted)
    as (_ & Hcalls & Hcur & _); [reflexivity|right; right; discriminate|].
  split; [exact Hcalls|]. rewrite Hcur. reflexivity.
Defined.

(** The test 'filter when you type in the field for a string column', and
    clearing the field afterwards. *)
Lemma header_filter_reaches_service_witness :
  (∃ cs,
     serviceCalls
       (request twoPersons false None firstPage
          (afterRender true plainProps
             (setHeaderPropertyFilter firstNameFilter mounted))).2
     = [(requestOf firstPage, Some (AndFilter cs))]
     ∧ PropertyString firstNameFilter ∈ cs).
Proof.
  exact (proj1 (header_filter_reaches_service
                  twoPersons false None firstPage twoPersons false None firstPage
                  plainProps mounted "firstName" CONTAINS "filter-value" CONTAINS
                  true true reachable_mounted eq_refl eq_refl
                  ltac:(discriminate))).
Defined.

End HeaderFilterExamples.

(** ** The filter types on both sides of the wire *)

Module FilterTypeFacts.
Import FilterType.

Section FilterTypeFacts.

Context {Matcher : Type}.

(** C5.  The discriminator travels in the ['@type'] property on both
    sides; the ['@type'] of every TypeScript filter object resolves to the
    Java class it stands for, so also for what the data provider of
    [AutoGrid] sends; and the names declared in Java are exactly the values
    the TypeScript types have. *)
Theorem filter_type_names_agree (m : Matcher) :
  JavaFilter.typeProperty JavaFilter.Filter_JsonTypeInfo = typeKey
  ∧ (∀ f : FilterUnion Matcher,
       JavaFilter.resolve (typeOf Matcher f) = Some (classOf Matcher f))
  ∧ (∀ name,
       name ∈ JavaFilter.Filter_JsonSubTypes.*2
       ↔ ∃ f : FilterUnion Matcher, typeOf Matcher f = name)
  ∧ (∀ (st : AutoGrid.State Matcher) f,
       AutoGrid.currentFilter st = Some f →
       is_Some (JavaFilter.resolve (typeOf Matcher f))).
Proof.
  split_and!.
  - reflexivity.
  - by intros [].
  - intros name. split.
    + simpl. rewrite !elem_of_cons, elem_of_nil.
      intros [->|[->|[->|[]]]].
      * by exists (OrFilter []).
      * by exists (AndFilter []).
      * by exists (PropertyString
                     {| propertyId := ""; matcher := m; filterValue := "" |}).
    + intros [[] <-]; simpl; set_solver.
  - intros st f _. by destruct f.
Qed.

End FilterTypeFacts.
End FilterTypeFacts.

(** ** The backbone plugin *)

Module BackbonePluginFacts.
Import BackbonePlugin.

Section BackbonePluginFacts.

Context {RelativeClassInfo OpenAPI OtherStorage : Type}.
Context (EndpointProcessor_process EntityProcessor_process
           : list RelativeClassInfo → OpenAPI → OpenAPI).

(** C6.  [execute] gets the model from the storage, has the endpoint
    processor work on all endpoints and then the entity processor work on
    all entities, both on that model; it returns nothing and leaves the rest
    of the storage as it was. *)
Theorem execute_runs_endpoint_then_entity_processor
    endpoints entities (w : World RelativeClassInfo OpenAPI OtherStorage) :
  execute RelativeClassInfo OpenAPI OtherStorage
    EndpointProcessor_process EntityProcessor_process endpoints entities w
  = (tt,
     {| openAPI :=
          EntityProcessor_process entities
            (EndpointProcessor_process endpoints
               (openAPI _ _ _ w));
        otherStorage := otherStorage _ _ _ w;
        calls := calls _ _ _ w
                 ++ [GetOpenAPI _; EndpointProcess _ endpoints;
                     EntityProcess _ entities] |}).
Proof.
  unfold execute, EndpointProcessor, EntityProcessor, getOpenAPI, bind, ret,
    logCall, mutate.
  simpl. by rewrite <-!app_assoc.
Qed.

End BackbonePluginFacts.
End BackbonePluginFacts.

(** ** The type argument model *)

Module TypeArgumentModelFacts.
Import TypeArgumentModel.

Section TypeArgumentModelFacts.

Context {TypeArgument AnnotatedType Model : Type}.

Implicit Types (m : TypeArgumentModel TypeArgument AnnotatedType Model).

(** C7.  The factory on a scanned [TypeArgument] yields a source model
    exactly when origin and parent are both non-null, the factory on a
    reflected [AnnotatedType] yields a reflection model exactly when the
    origin is non-null, whatever the parent; the factories throw
    otherwise, and every model they yield answers [true] to
    [isTypeArgument()]. *)
Theorem type_argument_model_factories :
  (∀ origin parent,
     match origin, parent with
     | Some o, Some p =>
         of_TypeArgument TypeArgument AnnotatedType Model origin parent
         = inr (TypeArgumentSourceModel _ _ _ o p)
     | _, _ =>
         of_TypeArgument TypeArgument AnnotatedType Model origin parent
         = inl NullPointerException
     end)
  ∧ (∀ origin parent,
       match origin with
       | Some o =>
           of_AnnotatedType TypeArgument AnnotatedType Model origin parent
           = inr (TypeArgumentReflectionModel _ _ _ o parent)
       | None =>
           of_AnnotatedType TypeArgument AnnotatedType Model origin parent
           = inl NullPointerException
       end)
  ∧ (∀ origin parent m,
       of_TypeArgument TypeArgument AnnotatedType Model origin parent = inr m →
       isTypeArgument m = true)
  ∧ (∀ origin parent m,
       of_AnnotatedType TypeArgument AnnotatedType Model origin parent = inr m →
       isTypeArgument m = true).
Proof.
  split_and!.
  - by intros [o|] [p|].
  - by intros [o|] parent.
  - done.
  - done.
Qed.

End TypeArgumentModelFacts.
End TypeArgumentModelFacts.

(** ** The endpoints validator *)

Module EndpointsValidatorFacts.
Import EndpointsValidator.

Lemma existsb_isEndpoint classes :
  existsb isEndpoint classes = true ↔ Exists (λ c, Endpoint ∈ annotations c) classes.
Proof.
  rewrite existsb_exists, Exists_exists. unfold isEndpoint.
  split; intros (c & Hc & Hann); exists c.
  - split; [by apply list_elem_of_In|]. by apply bool_decide_eq_true in Hann.
  - split; [by apply list_elem_of_In|]. by apply bool_decide_eq_true.
Qed.

(** C10.  [process] returns normally for a [null] class set and for a set
    without a class annotated with [@Endpoint]; it throws
    [ServletException] for a set with such a class when the class to check
    is not on the classpath. *)
Theorem process_returns_or_throws classpath v :
  process classpath v None = inr tt
  ∧ (∀ classes,
       Forall (λ c, Endpoint ∉ annotations c) classes →
       process classpath v (Some classes) = inr tt)
  ∧ (∀ classes,
       Exists (λ c, Endpoint ∈ annotations c) classes →
       classToCheck v ∉ classpath →
       process classpath v (Some classes) = inl ServletException).
Proof.
  split_and!.
  - reflexivity.
  - intros classes Hnone. unfold process.
    destruct (existsb isEndpoint classes) eqn:Hex; [|done].
    apply existsb_isEndpoint, Exists_exists in Hex as (c & Hc & Hann).
    rewrite Forall_forall in Hnone. by destruct (Hnone c Hc).
  - intros classes Hsome Hmissing. unfold process.
    rewrite (proj2 (existsb_isEndpoint classes) Hsome).
    by rewrite bool_decide_eq_false_2.
Qed.

(** The tests of [EndpointsValidatorTest.java] that need no Spring class,
    on a classpath without [foo.bar.Baz]. *)
Lemma process_returns_or_throws_witness :
  process [] Fixtures.fooBarBaz (Some [Fixtures.WithConnectEndpoint])
  = inl ServletException
  ∧ process [] Fixtures.fooBarBaz (Some [Fixtures.WithoutConnectEndpoint]) = inr tt
  ∧ process [] Fixtures.fooBarBaz None = inr tt.
Proof.
  split_and!.
  - apply (proj2 (proj2 (process_returns_or_throws _ Fixtures.fooBarBaz))).
    + apply Exists_cons_hd. by left.
    + by apply (bool_decide_unpack _).
  - apply (proj1 (proj2 (process_returns_or_throws [] Fixtures.fooBarBaz))).
    repeat constructor. apply not_elem_of_nil.
  - apply (proj1 (process_returns_or_throws [] Fixtures.fooBarBaz)).
Defined.

End EndpointsValidatorFacts.

(** ** The scenarios of [autogrid.spec.tsx], run on the model *)

Module SpecScenarios.
Import AutoGrid Fixtures.

(** 'sorts by multiple columns' *)
Example sorts_by_multiple_columns :
  lastCall [sorter "firstName" (Some "asc"); sorter "lastName" (Some "desc")] mounted
  = [([Mapped.Build_Order "firstName" Mapped.ASC false;
       Mapped.Build_Order "lastName" Mapped.DESC false],
      Some (AndFilter []))]
  ∧ lastCall [sorter "firstName" (Some "asc"); sorter "lastName" None] mounted
    = [([Mapped.Build_Order "firstName" Mapped.ASC false], Some (AndFilter []))].
Proof. split; reflexivity. Qed.

(** 'combine filters (and) when you type in multiple fields' *)
Example combine_filters :
  let st := (render true plainProps
               (setHeaderPropertyFilter (typed "lastName" "filterLast")
                  (render true plainProps
                     (setHeaderPropertyFilter (typed "firstName" "filterFirst")
                        mounted)).1)).1 in
  lastCall [] st
  = [([], Some (AndFilter [PropertyString (typed "firstName" "filterFirst");
                           PropertyString (typed "lastName" "filterLast")]))].
Proof. reflexivity. Qed.

(** 'removes the filters when you clear the fields' *)
Example clear_the_fields :
  let st := setHeaderPropertyFilter (typed "lastName" "")
              (setHeaderPropertyFilter (typed "firstName" "")
                 (setHeaderPropertyFilter (typed "lastName" "filterLast")
                    (setHeaderPropertyFilter (typed "firstName" "filterFirst")
                       mounted))) in
  lastCall [] (render true plainProps st).1 = [([], Some (AndFilter []))].
Proof. reflexivity. Qed.

(** 'removes filters if turning header filters off': the render with
    [noHeaderFilters] queues the empty filter, the render that follows
    hands it to the data provider and clears the cache. *)
Example turning_header_filters_off :
  let off := {| experimentalFilter := None; noHeaderFilters := Some true;
                refreshTrigger := None |} in
  let st := (render true plainProps
               (setHeaderPropertyFilter (typed "firstName" "Joh") mounted)).1 in
  lastCall [] st = [([], Some (AndFilter [PropertyString (typed "firstName" "Joh")]))]
  ∧ (render true off (render true off st).1).2 = [ClearCache]
  ∧ lastCall [] (render true off (render true off st).1).1
    = [([], Some (AndFilter []))].
Proof. split_and!; reflexivity. Qed.

(** 'passes filter to the data provider' *)
Example passes_experimental_filter :
  let filter := PropertyString
                  {| propertyId := "firstName"; matcher := CONTAINS; filterValue := "Jan" |} in
  let props := {| experimentalFilter := Some {| externalId := 0; externalValue := filter |};
                  noHeaderFilters := None; refreshTrigger := None |} in
  lastCall [] (render true props initial).1 = [([], Some filter)].
Proof. reflexivity. Qed.

(** The array is shared: the data provider sees a header filter as soon as
    the setter has run, before the component is rendered again. *)
Example shared_children_array :
  let st := setHeaderPropertyFilter (typed "firstName" "Joh") mounted in
  dataProviderFilter st = dataProviderFilter mounted
  ∧ currentFilter mounted = Some (AndFilter [])
  ∧ currentFilter st = Some (AndFilter [PropertyString (typed "firstName" "Joh")]).
Proof. split_and!; reflexivity. Qed.

End SpecScenarios.

(** * Further properties *)

(** ** The setter as a function on the array *)

Module HeaderFilterArrayFacts.
Import AutoGrid HeaderFilterArray HeaderFilterFacts.

Lemma findIndex_none {A} (p : A → bool) (l : list A) :
  Forall (λ x, p x = false) l → findIndex p l = -1.
Proof.
  intros Hall.
  destruct (findIndex_cases p l) as [[? _]|(l1 & x & l2 & -> & _ & Hx & _)]; [done|].
  apply Forall_app in Hall as [_ Hall]. apply Forall_cons in Hall as [Hno _].
  congruence.
Qed.

Lemma findIndexFrom_first {A} (p : A → bool) (l1 l2 : list A) (x : A) (i : Z) :
  Forall (λ y, p y = false) l1 → p x = true →
  findIndexFrom p (l1 ++ x :: l2) i = i + Z.of_nat (length l1).
Proof.
  intros Hl1 Hx. revert i.
  induction Hl1 as [|y l1 Hy _ IH]; intros i; simpl.
  - rewrite Hx. lia.
  - rewrite Hy, IH. lia.
Qed.

Lemma findIndex_first {A} (p : A → bool) (l1 l2 : list A) (x : A) :
  Forall (λ y, p y = false) l1 → p x = true →
  findIndex p (l1 ++ x :: l2) = Z.of_nat (length l1).
Proof. intros. unfold findIndex. by rewrite findIndexFrom_first. Qed.

Section HeaderFilterArrayFacts.

Context {Matcher : Type}.

Implicit Types (cs before after : list (FilterUnion Matcher)).
Implicit Types (f old : FilterUnion Matcher).
Implicit Types (pf first second : PropertyStringFilter Matcher).
Implicit Types (st : State Matcher).

(** The array after a call, by what the call finds. *)
Lemma childrenAfter_found pf before old after :
  Forall (λ f, hasPropertyId (propertyId pf) f = false) before →
  hasPropertyId (propertyId pf) old = true →
  childrenAfter pf (before ++ old :: after)
  = if decide (filterValue pf = ""%string)
    then before ++ after else before ++ PropertyString pf :: after.
Proof.
  intros Hb Ho. unfold childrenAfter.
  rewrite (findIndex_first _ before after old Hb Ho).
  rewrite (proj2 (Z.leb_le 0 _)) by lia. rewrite Nat2Z.id.
  case_decide.
  - apply delete_middle.
  - by rewrite insert_app_r_alt, Nat.sub_diag by lia.
Qed.

Lemma childrenAfter_new pf cs :
  Forall (λ f, hasPropertyId (propertyId pf) f = false) cs →
  childrenAfter pf cs
  = if decide (filterValue pf = ""%string) then cs else cs ++ [PropertyString pf].
Proof.
  intros Hcs. unfold childrenAfter. rewrite (findIndex_none _ cs Hcs). simpl.
  by case_decide.
Qed.

(** Every array is of one of the two shapes. *)
Lemma children_shape id cs :
  Forall (λ f, hasPropertyId id f = false) cs
  ∨ ∃ before old after,
      cs = before ++ old :: after
      ∧ Forall (λ f, hasPropertyId id f = false) before
      ∧ hasPropertyId id old = true.
Proof.
  destruct (findIndex_cases (hasPropertyId id) cs)
    as [[_ Hall]|(l1 & x & l2 & -> & _ & Hx & Hall)]; [by left|].
  right. by exists l1, x, l2.
Qed.

(** The setter of the component writes [childrenAfter] into the array. *)
Lemma headerChildren_setHeaderPropertyFilter pf st :
  headerChildren (setHeaderPropertyFilter pf st) = childrenAfter pf (headerChildren st).
Proof.
  unfold setHeaderPropertyFilter, childrenAfter.
  repeat case_match; by rewrite ?headerChildren_changed.
Qed.

Lemma hasPropertyId_PropertyString pf :
  hasPropertyId (propertyId pf) (PropertyString pf) = true.
Proof. simpl. by apply bool_decide_eq_true. Qed.

(** X1.  For calls on one property the last call wins: a call with a
    value followed by any call for the same property leaves the array as
    the second call alone would. *)
Theorem setHeaderPropertyFilter_last_call_wins first second st :
  propertyId first = propertyId second →
  filterValue first ≠ ""%string →
  headerChildren (setHeaderPropertyFilter second (setHeaderPropertyFilter first st))
  = headerChildren (setHeaderPropertyFilter second st).
Proof.
  intros Hid Hval. rewrite !headerChildren_setHeaderPropertyFilter.
  generalize (headerChildren st) as cs. intros cs.
  destruct (children_shape (propertyId first) cs)
    as [Hnew|(b & o & a & -> & Hb & Ho)].
  - rewrite (childrenAfter_new first cs Hnew), decide_False by done.
    rewrite Hid in Hnew.
    rewrite (childrenAfter_found second cs (PropertyString first) []);
      [|done|by rewrite <-Hid; apply hasPropertyId_PropertyString].
    rewrite (childrenAfter_new second cs Hnew).
    case_decide; [by rewrite app_nil_r|done].
  - rewrite (childrenAfter_found first b o a Hb Ho), decide_False by done.
    rewrite Hid in Hb, Ho.
    rewrite (childrenAfter_found second b (PropertyString first) a);
      [|done|by rewrite <-Hid; apply hasPropertyId_PropertyString].
    by rewrite (childrenAfter_found second b o a Hb Ho).
Qed.

(** X2.  A call leaves the entries of all other properties as they are,
    and in their order. *)
Theorem setHeaderPropertyFilter_keeps_other_properties pf st :
  filter (λ f, hasPropertyId (propertyId pf) f = false)
    (headerChildren (setHeaderPropertyFilter pf st))
  = filter (λ f, hasPropertyId (propertyId pf) f = false) (headerChildren st).
Proof.
  rewrite headerChildren_setHeaderPropertyFilter.
  generalize (headerChildren st) as cs. intros cs.
  pose proof (hasPropertyId_PropertyString pf) as Hpf.
  destruct (children_shape (propertyId pf) cs)
    as [Hnew|(b & o & a & -> & Hb & Ho)].
  - rewrite (childrenAfter_new pf cs Hnew). case_decide; [done|].
    rewrite filter_app, filter_cons_False, filter_nil by congruence.
    by rewrite app_nil_r.
  - rewrite (childrenAfter_found pf b o a Hb Ho).
    case_decide; rewrite !filter_app, !filter_cons_False by congruence; done.
Qed.

(** X3.  Clearing a property and then giving it a value puts its entry
    last: the array becomes the entries of the other properties followed
    by the new filter. *)
Theorem setHeaderPropertyFilter_clear_then_set cleared pf st :
  reachable st →
  propertyId cleared = propertyId pf →
  filterValue cleared = ""%string → filterValue pf ≠ ""%string →
  headerChildren (setHeaderPropertyFilter pf (setHeaderPropertyFilter cleared st))
  = filter (λ f, hasPropertyId (propertyId pf) f = false) (headerChildren st)
    ++ [PropertyString pf].
Proof.
  intros Hreach Hid Hempty Hval.
  pose proof (reachable_storeInvariant _ Hreach (children (internalFilter st)))
    as [_ Hnd]. fold (headerChildren st) in Hnd.
  rewrite !headerChildren_setHeaderPropertyFilter.
  revert Hnd. generalize (headerChildren st) as cs. intros cs Hnd.
  destruct (children_shape (propertyId pf) cs)
    as [Hnew|(b & o & a & -> & Hb & Ho)].
  - rewrite (childrenAfter_new cleared cs) by (by rewrite Hid).
    rewrite decide_True by done.
    rewrite (childrenAfter_new pf cs Hnew), decide_False by done.
    by rewrite (filter_all _ cs Hnew).
  - rewrite (childrenAfter_found cleared b o a) by (by rewrite Hid).
    rewrite decide_True by done.
    rewrite (delete_first_is_filter (propertyId pf) b o a Hnd Ho Hb).
    rewrite childrenAfter_new, decide_False; [done|done|].
    apply Forall_forall. by intros f [? _]%list_elem_of_filter.
Qed.

(** A call that changes the state queues a copy of the filter object. *)
Lemma changed_ne cs st : changed (writeChildren cs st) ≠ st.
Proof. intros Heq. apply (f_equal nextId) in Heq. simpl in Heq. lia. Qed.

Lemma setHeaderPropertyFilter_queues pf st :
  setHeaderPropertyFilter pf st ≠ st →
  queuedInternalFilter (setHeaderPropertyFilter pf st)
  = Some {| objectId := nextId st; children := children (internalFilter st) |}.
Proof.
  destruct (setHeaderPropertyFilter_cases pf st)
    as [(_ & _ & ->)|[(_ & b & o & a & _ & _ & _ & ->)
       |[(_ & b & o & a & _ & _ & _ & ->)|(_ & _ & ->)]]]; done.
Qed.

(** X4.  The setter leaves the state of the component untouched exactly
    when it is asked to clear a property that has no filter; every other
    call queues a new state object, also when it writes the filter that is
    already there. *)
Theorem setHeaderPropertyFilter_unchanged_iff pf st :
  (setHeaderPropertyFilter pf st = st
   ↔ filterValue pf = ""%string ∧ propertyId pf ∉ propertyIds (headerChildren st))
  ∧ (setHeaderPropertyFilter pf st ≠ st →
     queuedInternalFilter (setHeaderPropertyFilter pf st)
     = Some {| objectId := nextId st; children := children (internalFilter st) |}).
Proof.
  split; [|apply setHeaderPropertyFilter_queues].
  destruct (setHeaderPropertyFilter_cases pf st)
    as [(Hv & Hnew & Heq)|[(Hv & b & o & a & Hcs & Ho & _ & Heq)
       |[(Hv & b & o & a & Hcs & Ho & _ & Heq)|(Hv & Hnew & Heq)]]];
    rewrite Heq; (split; [|try done]).
  - done.
  - by intros ?%changed_ne.
  - intros [_ []]. apply elem_of_propertyIds. exists o. split; [|done].
    rewrite Hcs. apply elem_of_app. right. by left.
  - by intros ?%changed_ne.
  - by intros [? _].
  - by intros ?%changed_ne.
  - by intros [? _].
Qed.

End HeaderFilterArrayFacts.
End HeaderFilterArrayFacts.

(** ** Renders after a change *)

Module EffectFacts.
Import AutoGrid HeaderFilterArray HeaderFilterFacts HeaderFilterArrayFacts.

Section EffectFacts.

Context {Matcher : Type}.

Implicit Types (pf : PropertyStringFilter Matcher).
Implicit Types (st : State Matcher).
Implicit Types (props prev : Props Matcher).

Lemma sameExternal_refl (e : option (ExternalFilter Matcher)) :
  sameExternal e e = true.
Proof. destruct e; simpl; [by apply bool_decide_eq_true|done]. Qed.

Lemma filterDepsChanged_same props (o : AndFilterObject) :
  filterDepsChanged (Some props) o props o = false.
Proof.
  unfold filterDepsChanged, sameObject.
  rewrite sameExternal_refl, Z.eqb_refl. by rewrite bool_decide_eq_true_2.
Qed.

Lemma noHeaderFiltersChanged_same props :
  noHeaderFiltersChanged (Some props) props = false.
Proof. unfold noHeaderFiltersChanged. by rewrite bool_decide_eq_true_2. Qed.

(** X5.  After a call of the setter that changed the array, the next
    render, with the props the component had, clears the cache of the
    grid, has the queued copy as its internal filter, showing the array
    that was written, and sets the filter reference of the data provider to
    [experimentalFilter ?? internalFilter]: to the new object when no
    [experimentalFilter] is passed, and to the experimental filter
    otherwise; after a call that changed nothing, with nothing else queued,
    the render neither clears the cache nor writes the reference. *)
Theorem render_after_setHeaderPropertyFilter pf props st :
  reachable st → rendered st = Some props →
  let st' := setHeaderPropertyFilter pf st in
  (st' ≠ st →
   (render true props st').2 = [ClearCache]
   ∧ dataProviderFilter (render true props st').1
     = Some (effectiveFilter props (render true props st').1)
   ∧ headerChildren (render true props st').1 = headerChildren st'
   ∧ internalFilter (render true props st').1
     = {| objectId := nextId st; children := children (internalFilter st) |}
   ∧ dataProviderFilter (render true props st').1
     = Some (match experimentalFilter props with
             | Some e => Experimental e
             | None =>
                 HeaderFilters
                   {| objectId := nextId st; children := children (internalFilter st) |}
             end))
  ∧ (st' = st → queuedInternalFilter st = None →
     (render true props st').2 = []
     ∧ dataProviderFilter (render true props st').1 = dataProviderFilter st).
Proof.
  intros Hreach Hprops st'.
  pose proof (reachable_refInvariant _ Hreach) as (Hlt & _ & _).
  assert (rendered st' = Some props) as Hprops'.
  { subst st'. by rewrite rendered_setHeaderPropertyFilter. }
  destruct (render_hooks props st') as (Hint & _ & _ & _ & _ & Hdpf & Hcalls).
  split.
  - intros Hne.
    pose proof (setHeaderPropertyFilter_queues pf st Hne) as Hq. fold st' in Hq.
    assert (internalFilter st' = internalFilter st) as Hsame.
    { subst st'.
      destruct (setHeaderPropertyFilter_cases pf st)
        as [(_ & _ & ->)|[(_ & b & o & a & _ & _ & _ & ->)
           |[(_ & b & o & a & _ & _ & _ & ->)|(_ & _ & ->)]]]; done. }
    assert (filterDepsChanged (rendered st') (internalFilter st') props
              (internalFilter (render true props st').1) = true) as Hrun.
    { rewrite Hint, Hq, Hprops', Hsame. simpl. unfold filterDepsChanged, sameObject.
      simpl. rewrite (bool_decide_eq_false_2 _) by lia.
      by rewrite orb_true_r. }
    rewrite Hrun in Hdpf, Hcalls. split_and!; [done|done| | |].
    + destruct (render_again_arrays props st' Hprops') as (Harr & _).
      unfold headerChildren. rewrite Hint, Hq, Harr. simpl. by rewrite Hsame.
    + by rewrite Hint, Hq.
    + rewrite Hdpf. unfold effectiveFilter.
      destruct (experimentalFilter props); [done|]. by rewrite Hint, Hq.
  - intros Heq Hnone. rewrite Heq in *. rewrite Hnone in Hint. simpl in Hint.
    rewrite Hint, Hprops, filterDepsChanged_same in Hdpf, Hcalls. done.
Qed.

(** The two renders that follow [noHeaderFilters] being set. *)
Lemma noHeaderFilters_reset props st :
  reachable st →
  noHeaderFiltersChanged (rendered st) props = true →
  noHeaderFilters props = Some true →
  let st1 := (render true props st).1 in
  let st2 := (render true props st1).1 in
  headerChildren st2 = []
  ∧ dataProviderFilter st2 = Some (effectiveFilter props st2)
  ∧ (render true props st1).2 = [ClearCache]
  ∧ queuedInternalFilter st2 = None
  ∧ rendered st2 = Some props.
Proof.
  intros Hreach Hchanged Hoff st1 st2.
  pose proof (reachable_refInvariant _ Hreach) as (Hlt & Hq & _).
  assert (objectId (default (internalFilter st) (queuedInternalFilter st)) < nextId st)%nat
    as Hnew.
  { destruct (queuedInternalFilter st) as [o|] eqn:Ho; simpl; [|done].
    specialize (Hq o eq_refl). lia. }
  assert (queuedInternalFilter st1
          = Some {| objectId := S (nextId st); children := nextId st |}
          ∧ arrays st1 !!! nextId st = []
          ∧ internalFilter st1 = default (internalFilter st) (queuedInternalFilter st)
          ∧ rendered st1 = Some props) as (Hq1 & Harr1 & Hint1 & Hren1).
  { subst st1. unfold render, filterEffect, noHeaderFiltersEffect.
    rewrite Hchanged, Hoff. simpl.
    destruct (filterDepsChanged _ _ _ _); simpl;
      by rewrite lookup_total_insert_eq. }
  destruct (render_hooks props st1) as (Hint & Hren & _ & _ & _ & Hdpf & Hcalls).
  destruct (render_again_arrays props st1 Hren1) as (Harr & Hnone).
  fold st2 in Hint, Hren, Hdpf, Hcalls, Harr, Hnone.
  assert (filterDepsChanged (rendered st1) (internalFilter st1) props
            (internalFilter st2) = true) as Hrun.
  { rewrite Hint, Hq1, Hren1, Hint1. simpl. unfold filterDepsChanged, sameObject.
    simpl. rewrite (bool_decide_eq_false_2 _) by lia.
    by rewrite orb_true_r. }
  rewrite Hrun in Hdpf, Hcalls.
  split_and!; try done.
  unfold headerChildren. by rewrite Hint, Hq1, Harr.
Qed.

(** X6.  Turning the header filters off empties the header filter: when a
    render finds [noHeaderFilters] set, on the first render or after a
    render where it was not, the render after it gives the data provider
    an and-filter without children and clears the cache, whatever filters
    were set before. *)
Theorem noHeaderFilters_empties_the_filter props st :
  reachable st →
  noHeaderFiltersChanged (rendered st) props = true →
  noHeaderFilters props = Some true →
  experimentalFilter props = None →
  let st1 := (render true props st).1 in
  let st2 := (render true props st1).1 in
  headerChildren st2 = []
  ∧ currentFilter st2 = Some (AndFilter [])
  ∧ (render true props st1).2 = [ClearCache]
  ∧ queuedInternalFilter st2 = None.
Proof.
  intros Hreach Hchanged Hoff Hexp st1 st2.
  destruct (noHeaderFilters_reset props st Hreach Hchanged Hoff)
    as (Hempty & Hdpf & Hcalls & Hnone & _).
  fold st1 st2 in Hempty, Hdpf, Hcalls, Hnone.
  split_and!; [done| |done|done].
  unfold currentFilter. rewrite Hdpf. unfold effectiveFilter. rewrite Hexp.
  fold (headerChildren st2). by rewrite Hempty.
Qed.

(** X7.  Mounting: the first render clears the cache of the grid once; the
    render that follows clears it a second time exactly when the component
    was mounted with [noHeaderFilters]. *)
Theorem mount_clears_the_cache props :
  let st1 := (render true props (initial (Matcher:=Matcher))).1 in
  (render true props initial).2 = [ClearCache]
  ∧ (render true props st1).2
    = (if decide (noHeaderFilters props = Some true) then [ClearCache] else []).
Proof.
  intros st1.
  destruct (render_hooks props (initial (Matcher:=Matcher)))
    as (Hint1 & Hren1 & _ & _ & _ & _ & Hcalls1).
  split; [exact Hcalls1|].
  destruct (render_hooks props st1) as (Hint & _ & _ & _ & _ & _ & Hcalls).
  fold st1 in Hint1, Hren1. rewrite Hcalls, Hint, Hren1, Hint1. simpl.
  assert (queuedInternalFilter st1
          = if decide (noHeaderFilters props = Some true)
            then Some {| objectId := 3; children := 2 |} else None) as ->.
  { subst st1. unfold render, filterEffect, noHeaderFiltersEffect. simpl.
    destruct (noHeaderFilters props) as [[|]|]; by simpl. }
  case_decide; simpl.
  - unfold filterDepsChanged, sameObject. simpl. by rewrite orb_true_r.
  - by rewrite sameExternal_refl, Z.eqb_refl.
Qed.

(** While an [experimentalFilter] is passed, the reference of the data
    provider is an object with its identity. *)
Lemma reachable_experimental props e st :
  reachable st → rendered st = Some props → experimentalFilter props = Some e →
  ∃ e', dataProviderFilter st = Some (Experimental e')
        ∧ externalId e' = externalId e.
Proof.
  intros Hreach. revert props e.
  induction Hreach as [|props0 st _ IH|pf st _ IH]; intros props e Hprops Hexp.
  - done.
  - destruct (render_hooks props0 st) as (_ & Hren & _ & _ & _ & Hdpf & _).
    rewrite Hren in Hprops. injection Hprops as <-. rewrite Hdpf.
    destruct (filterDepsChanged _ _ _ _) eqn:Hrun.
    + exists e. unfold effectiveFilter. by rewrite Hexp.
    + unfold filterDepsChanged in Hrun.
      destruct (rendered st) as [prev|] eqn:Hprev; [|done].
      apply orb_false_elim in Hrun as [Hrun _].
      apply orb_false_elim in Hrun as [Hext _].
      apply negb_false_iff in Hext. rewrite Hexp in Hext.
      destruct (experimentalFilter prev) as [e0|] eqn:Hprevexp; [|done].
      simpl in Hext. apply bool_decide_eq_true in Hext.
      destruct (IH prev e0 eq_refl Hprevexp) as (e' & ? & ?).
      exists e'. split; [done|congruence].
  - rewrite dataProviderFilter_setHeaderPropertyFilter.
    rewrite rendered_setHeaderPropertyFilter in Hprops. eauto.
Qed.

(** X8.  An [experimentalFilter] replaces the header filters: while one is
    passed, the service is given that filter object, and no call of the
    header-filter setter changes what the service is given. *)
Theorem experimentalFilter_overrides_header_filters props e pf st :
  reachable st → rendered st = Some props → experimentalFilter props = Some e →
  (∃ e', currentFilter st = Some (externalValue e')
         ∧ externalId e' = externalId e)
  ∧ currentFilter (setHeaderPropertyFilter pf st) = currentFilter st.
Proof.
  intros Hreach Hprops Hexp.
  destruct (reachable_experimental props e st Hreach Hprops Hexp) as (e' & Hdpf & Hid).
  split.
  - exists e'. unfold currentFilter. by rewrite Hdpf.
  - unfold currentFilter.
    by rewrite dataProviderFilter_setHeaderPropertyFilter, Hdpf.
Qed.

End EffectFacts.
End EffectFacts.

(** ** Runs of the data provider *)

Module DataProviderRunFacts.
Import AutoGrid DataProviderRun DataProviderFacts.

Section DataProviderRunFacts.

Context {TItem Matcher : Type}.

Implicit Types (service : ListService TItem Matcher).
Implicit Types (requests : list (GridRequest Matcher)).
Implicit Types (evs : list (Event TItem Matcher)).

Lemma recalculations_app evs1 evs2 :
  recalculations (evs1 ++ evs2) = (recalculations evs1 + recalculations evs2)%nat.
Proof. unfold recalculations. by rewrite omap_app, length_app. Qed.

(** One call: the flag after it and the work-around it schedules. *)
Lemma dataProvider_first service cacheSize current first params :
  let r := dataProvider service cacheSize current first params in
  r.1 = first && negb (resolves service (cacheSize, current, params))
  ∧ recalculations r.2
    = (if first && resolves service (cacheSize, current, params) then 1 else 0)%nat.
Proof.
  unfold dataProvider, resolves. simpl. fold (requestOf params).
  destruct (service (requestOf params) current); destruct first; done.
Qed.

Lemma runRequests_not_first service requests :
  (runRequests service false requests).1 = false
  ∧ recalculations (runRequests service false requests).2 = 0%nat.
Proof.
  induction requests as [|[[cacheSize current] params] requests [IH1 IH2]]; [done|].
  simpl.
  destruct (dataProvider_first service cacheSize current false params) as [Hf Hn].
  destruct (dataProvider service cacheSize current false params) as [f evs].
  simpl in Hf, Hn. subst f.
  destruct (runRequests service false requests) as [f' evs']. simpl in *.
  split; [done|]. rewrite recalculations_app. lia.
Qed.

(** X9.  Over all the requests a data provider serves, the
    work-around [recalculateColumnWidths] is scheduled once, by the first
    request the service answers, and not at all when the service answers
    none; [first] is still set afterwards exactly in that case. *)
Theorem recalculateColumnWidths_scheduled_once service requests :
  let r := runRequests service true requests in
  recalculations r.2 = (if existsb (resolves service) requests then 1 else 0)%nat
  ∧ r.1 = negb (existsb (resolves service) requests).
Proof.
  induction requests as [|[[cacheSize current] params] requests [IH1 IH2]]; [done|].
  simpl.
  destruct (dataProvider_first service cacheSize current true params) as [Hf Hn].
  destruct (dataProvider service cacheSize current true params) as [f evs].
  simpl in Hf, Hn. subst f.
  destruct (resolves service (cacheSize, current, params)); simpl in *.
  - destruct (runRequests_not_first service requests) as [Hf' Hn'].
    destruct (runRequests service false requests) as [f' evs']. simpl in *.
    rewrite recalculations_app. split; [lia|done].
  - destruct (runRequests service true requests) as [f' evs']. simpl in *.
    rewrite recalculations_app, Hn, IH1. done.
Qed.


End DataProviderRunFacts.


End DataProviderRunFacts.

(** ** The columns *)

Module UseColumnsFacts.
Import UseColumns.

Section UseColumnsFacts.

Context {PropertyInfo ColumnOptions Renderer CustomColumn : Type}.
Context {SetPropertyFilter SetSortState : Type}.
Context (name : PropertyInfo → string) (includeProperty : PropertyInfo → bool).
Context (HeaderSorter : Renderer).
Context (getColumnOptions :
           PropertyInfo → option ColumnOptions → option Renderer * ColumnOptions).

Implicit Types (properties : list PropertyInfo).
Implicit Types (options : Options ColumnOptions CustomColumn).
Implicit Types (setPropertyFilter : SetPropertyFilter) (setSortState : SetSortState).
Implicit Types (hook : option SortState).

Abbreviation Columns :=
  (list (Element PropertyInfo ColumnOptions Renderer CustomColumn
           SetPropertyFilter SetSortState)).

Lemma find_Some properties n p :
  find name properties n = Some p → name p = n ∧ p ∈ properties.
Proof.
  unfold find. intros ([i q] & Hfind & ->)%fmap_Some.
  apply list_find_Some in Hfind as (Hl & ? & _). split; [done|].
  by eapply list_elem_of_lookup_2.
Qed.

Lemma find_None properties n :
  find name properties n = None ↔ n ∉ name <$> properties.
Proof.
  unfold find. rewrite fmap_None, list_find_None, Forall_forall.
  rewrite list_elem_of_fmap. split.
  - intros Hno (p & -> & Hp). by apply (Hno p).
  - intros Hno p Hp Hn. apply Hno. by exists p.
Qed.

(** Looking the names up keeps those that name a property, in order. *)
Lemma names_of_found properties (names : list string) :
  name <$> omap (find name properties) names
  = filter (λ n, n ∈ name <$> properties) names.
Proof.
  induction names as [|n names IH]; [done|]. simpl.
  destruct (find name properties n) as [p|] eqn:Hfind.
  - apply find_Some in Hfind as [<- Hp].
    rewrite filter_cons_True by (apply list_elem_of_fmap; eauto).
    rewrite fmap_cons. by f_equal.
  - apply find_None in Hfind. by rewrite filter_cons_False.
Qed.

Lemma names_of_effectiveProperties properties options :
  name <$> effectiveProperties name includeProperty properties options
  = match visibleColumns options with
    | Some visible => filter (λ n, n ∈ name <$> properties) visible
    | None => name <$> filter (λ p, includeProperty p = true) properties
    end.
Proof.
  unfold effectiveProperties, effectiveColumns. rewrite names_of_found.
  destruct (visibleColumns options); [done|].
  apply HeaderFilterFacts.filter_all, Forall_forall. intros n (p & -> & [_ Hp]%list_elem_of_filter)%list_elem_of_fmap.
  apply list_elem_of_fmap. eauto.
Qed.

Lemma propertyKeys_app (cs1 cs2 : Columns) :
  propertyKeys (cs1 ++ cs2) = propertyKeys cs1 ++ propertyKeys cs2.
Proof. apply omap_app. Qed.

Lemma propertyKeys_Custom (customs : list CustomColumn) :
  propertyKeys ((Custom <$> customs) : Columns) = [].
Proof. by induction customs. Qed.

Lemma propertyKeys_columnOf setPropertyFilter sortState setSortState options
    (effective : list PropertyInfo) :
  propertyKeys
    (columnOf name HeaderSorter getColumnOptions setPropertyFilter sortState
       setSortState options <$> effective)
  = name <$> effective.
Proof.
  induction effective as [|p effective IH]; [done|].
  rewrite !fmap_cons. unfold columnOf at 1.
  destruct (getColumnOptions p _). simpl. by f_equal.
Qed.

(** The columns in the three parts they are put together from. *)
Lemma useColumns_parts hook setSortState properties setPropertyFilter options :
  let r := useColumns name includeProperty HeaderSorter getColumnOptions
             hook setSortState properties setPropertyFilter options in
  r.2 = (if truthy (rowNumbers options) then [RowNumbers] else [])
        ++ (columnOf name HeaderSorter getColumnOptions setPropertyFilter r.1
              setSortState options
              <$> effectiveProperties name includeProperty properties options)
        ++ (Custom <$> default [] (customColumns options)).
Proof.
  unfold useColumns. simpl.
  destruct (customColumns options), (truthy (rowNumbers options)); simpl;
    by rewrite ?app_nil_r.
Qed.

(** The keys of the columns made for properties. *)
Lemma propertyKeys_useColumns hook setSortState properties setPropertyFilter options :
  propertyKeys
    (useColumns name includeProperty HeaderSorter getColumnOptions
       hook setSortState properties setPropertyFilter options).2
  = name <$> effectiveProperties name includeProperty properties options.
Proof.
  rewrite useColumns_parts.
  rewrite !propertyKeys_app, propertyKeys_Custom, app_nil_r, propertyKeys_columnOf.
  by destruct (truthy (rowNumbers options)).
Qed.

(** X11.  The columns shown for properties are, in this order, the names
    in [visibleColumns] that name a property of the model, unknown names
    being dropped, or, without [visibleColumns], the properties that
    [includeProperty] accepts; the row-number column, when asked for, comes
    before them and the custom columns come after them. *)
Theorem useColumns_columns hook setSortState properties setPropertyFilter options :
  let columns :=
    (useColumns name includeProperty HeaderSorter getColumnOptions
       hook setSortState properties setPropertyFilter options).2 in
  propertyKeys columns
  = match visibleColumns options with
    | Some visible => filter (λ n, n ∈ name <$> properties) visible
    | None => name <$> filter (λ p, includeProperty p = true) properties
    end
  ∧ ∃ forProperties : Columns,
      columns = (if truthy (rowNumbers options) then [RowNumbers] else [])
                ++ forProperties
                ++ (Custom <$> default [] (customColumns options))
      ∧ length forProperties = length (propertyKeys columns)
      ∧ Forall (λ e, ∃ key value column, e = Provider key value column) forProperties.
Proof.
  intros columns. subst columns. rewrite useColumns_parts.
  set (r := useColumns _ _ _ _ _ _ _ _ _).
  set (autos := columnOf _ _ _ _ _ _ _ <$> _).
  assert (propertyKeys autos
          = name <$> effectiveProperties name includeProperty properties options)
    as Hkeys by apply propertyKeys_columnOf.
  assert (propertyKeys
            ((if truthy (rowNumbers options) then [RowNumbers] else [])
             ++ autos ++ (Custom <$> default [] (customColumns options)))
          = propertyKeys autos) as Hall.
  { rewrite !propertyKeys_app, propertyKeys_Custom, app_nil_r.
    by destruct (truthy (rowNumbers options)). }
  rewrite Hall, Hkeys. split; [apply names_of_effectiveProperties|].
  exists autos. split_and!; [done| |].
  - subst autos. by rewrite !length_fmap.
  - subst autos. apply Forall_fmap, Forall_forall. intros p _. simpl.
    unfold columnOf. destruct (getColumnOptions p _). eauto.
Qed.

Lemma contextSortStates_app (cs1 cs2 : Columns) :
  contextSortStates (cs1 ++ cs2) = contextSortStates cs1 ++ contextSortStates cs2.
Proof. apply omap_app. Qed.

(** X12.  In its first render the component sorts ascending by the first
    column shown for a property, and by nothing when there is none; later
    renders keep the sort state they are given, whatever the columns have
    become; every column is handed the sort state of its render. *)
Theorem useColumns_sort_state hook setSortState properties setPropertyFilter options :
  let first := useColumns name includeProperty HeaderSorter getColumnOptions
                 None setSortState properties setPropertyFilter options in
  let r := useColumns name includeProperty HeaderSorter getColumnOptions
             hook setSortState properties setPropertyFilter options in
  first.1 = match propertyKeys first.2 with
            | key :: _ => {[ key := "asc"%string ]}
            | [] => ∅
            end
  ∧ (∀ sortState, hook = Some sortState → r.1 = sortState)
  ∧ Forall (λ s, s = r.1) (contextSortStates r.2).
Proof.
  intros first r. split_and!.
  - subst first. rewrite propertyKeys_useColumns. unfold useColumns. simpl.
    by destruct (effectiveProperties name includeProperty properties options).
  - by intros sortState ->.
  - subst r. rewrite useColumns_parts.
    set (r := useColumns _ _ _ _ _ _ _ _ _).
    rewrite !contextSortStates_app.
    apply Forall_app. split; [by destruct (truthy (rowNumbers options))|].
    apply Forall_app. split.
    + generalize (effectiveProperties name includeProperty properties options).
      intros effective. induction effective as [|p effective IH]; [constructor|].
      rewrite fmap_cons. unfold columnOf at 1. destruct (getColumnOptions p _).
      simpl. by constructor.
    + generalize (default [] (customColumns options)). intros customs.
      by induction customs.
Qed.

(** X13.  Every column made for a property has the sorter as its
    outermost header renderer, with or without header filters; with
    [noHeaderFilters] the sorter is its only header renderer, so the header
    filter that [getColumnOptions] supplies is not rendered. *)
Theorem useColumns_header_renderers hook setSortState properties setPropertyFilter options :
  let columns :=
    (useColumns name includeProperty HeaderSorter getColumnOptions
       hook setSortState properties setPropertyFilter options).2 in
  Forall (λ e, match e with
               | Provider _ _ _ =>
                   head (headerRenderers e) = Some HeaderSorter
                   ∧ (truthy (noHeaderFilters options) = true →
                      headerRenderers e = [HeaderSorter])
               | _ => True
               end) columns.
Proof.
  intros columns. subst columns. rewrite useColumns_parts.
  set (r := useColumns _ _ _ _ _ _ _ _ _).
  apply Forall_app. split; [destruct (truthy (rowNumbers options)); by repeat constructor|].
  apply Forall_app. split.
  - apply Forall_fmap, Forall_forall. intros p _. simpl. unfold columnOf.
    destruct (getColumnOptions p _) as [renderer columnProps].
    destruct (truthy (noHeaderFilters options)); simpl; by split.
  - apply Forall_fmap, Forall_forall. by intros.
Qed.

End UseColumnsFacts.
End UseColumnsFacts.

(** ** The views *)

Module ViewFacts.
Import AutoGrid HeaderFilterFacts EffectFacts.

Section WithHeaderFilters.
Import ReadOnlyGridWithHeaderFilters.

Context {Matcher : Type}.

Implicit Types (st : State Matcher).
Implicit Types (v : View).

(** A render without [noHeaderFilters] allocates nothing. *)
Lemma render_arrays_without_reset mounted (props : Props Matcher) st :
  AutoGrid.noHeaderFilters props ≠ Some true →
  arrays (render mounted props st).1 = arrays st
  ∧ queuedInternalFilter (render mounted props st).1 = None.
Proof.
  intros Hoff. unfold render, filterEffect, noHeaderFiltersEffect.
  destruct (AutoGrid.noHeaderFilters props) as [[|]|]; [done|..];
    destruct (noHeaderFiltersChanged _ _), (filterDepsChanged _ _ _ _), mounted; done.
Qed.

(** X14.  In the view with the two buttons: switching the header filters
    off empties the filter the service is given, whatever was typed into
    the header before, and switching them on again does not bring the
    filters back, nor does it make the grid fetch again. *)
Theorem toggling_header_filters_off_and_on v st :
  AutoGrid.reachable st →
  rendered st = Some (gridProps v) →
  noHeaderFilters v = false →
  let off := gridProps (Matcher:=Matcher) (toggleHeaderFilters v) in
  let on := gridProps (Matcher:=Matcher) (toggleHeaderFilters (toggleHeaderFilters v)) in
  let st2 := (render true off (render true off st).1).1 in
  currentFilter st2 = Some (AndFilter [])
  ∧ currentFilter (render true on st2).1 = Some (AndFilter [])
  ∧ (render true on st2).2 = [].
Proof.
  intros Hreach Hprops Hon off on st2.
  assert (noHeaderFiltersChanged (rendered st) off = true) as Hchanged.
  { rewrite Hprops. unfold noHeaderFiltersChanged. simpl. by rewrite Hon. }
  assert (AutoGrid.noHeaderFilters off = Some true) as Hoff.
  { subst off. simpl. by rewrite Hon. }
  destruct (noHeaderFilters_reset off st Hreach Hchanged Hoff)
    as (Hempty & Hdpf2 & _ & Hnone & Hren).
  fold st2 in Hempty, Hdpf2, Hnone, Hren.
  assert (currentFilter st2 = Some (AndFilter [])) as Hcur.
  { unfold currentFilter. rewrite Hdpf2. simpl.
    fold (headerChildren st2). by rewrite Hempty. }
  split; [exact Hcur|].
  destruct (render_hooks on st2) as (Hint & _ & _ & _ & _ & Hdpf & Hcalls).
  assert (AutoGrid.noHeaderFilters on ≠ Some true) as Hback.
  { subst on. simpl. by rewrite Hon. }
  destruct (render_arrays_without_reset true on st2 Hback) as [Harr _].
  rewrite Hnone in Hint. simpl in Hint.
  assert (filterDepsChanged (rendered st2) (internalFilter st2) on
            (internalFilter (render true on st2).1) = false) as Hrun.
  { rewrite Hint, Hren. unfold filterDepsChanged, sameObject. simpl.
    by rewrite bool_decide_eq_true_2. }
  rewrite Hrun in Hdpf, Hcalls. split; [|exact Hcalls].
  unfold currentFilter in *. by rewrite Hdpf, Harr.
Qed.

(** X15.  Whatever is clicked in that view, the service given to the grid
    is the one of the model given to it; the model is the person model
    after an even number of clicks on 'Change bean type', and the header
    filters are off after an odd number of clicks on 'Toggle header
    filters'. *)
Theorem view_model_and_service_agree (cs : list Click) :
  let v := clicks cs in
  service v = serviceOf (model v)
  ∧ model v = (if Nat.even (length (filter (λ c, c = ChangeBeanType) cs))
               then PersonModel else CompanyModel)
  ∧ noHeaderFilters v
    = Nat.odd (length (filter (λ c, c = ToggleHeaderFilters) cs)).
Proof.
  unfold clicks. induction cs as [|c cs IH] using rev_ind; [done|].
  rewrite foldl_app, !filter_app, !length_app. simpl.
  destruct IH as (Hs & Hm & Hn). destruct c; simpl.
  - rewrite Nat.add_0_r, Nat.add_1_r, Nat.even_succ, <-Nat.negb_even.
    unfold changeBeanType. rewrite Hm.
    destruct (Nat.even _); simpl; by rewrite ?Hn.
  - rewrite Nat.add_0_r, Nat.add_1_r, Nat.odd_succ.
    by rewrite Hn, Nat.negb_odd.
Qed.

End WithHeaderFilters.

Section SinglePropertyFilter.
Import ReadOnlyGridSinglePropertyFilter.

Context {Matcher : Type} (CONTAINS : Matcher).

Implicit Types (st : State Matcher).
Implicit Types (v : View Matcher).

(** The grid was last rendered with the props of the view, and the
    identities of the view's filter objects grow. *)
Lemma reachable_view v st :
  reachable CONTAINS v st →
  AutoGrid.reachable st
  ∧ rendered st = Some (gridProps v)
  ∧ ∀ e, filter v = Some e → (externalId e < nextObject v)%nat.
Proof.
  induction 1 as [|v st _ (Hst & Hren & Hid)|value v st _ (Hst & Hren & Hid)].
  - split_and!; [apply AutoGrid.reachable_render, AutoGrid.reachable_initial| |done].
    by destruct (render_hooks (gridProps initialView) (initial (Matcher:=Matcher)))
      as (_ & -> & _).
  - split_and!; [by apply AutoGrid.reachable_render| |done].
    by destruct (render_hooks (gridProps v) st) as (_ & -> & _).
  - split_and!; [by apply AutoGrid.reachable_render| |].
    + by destruct (render_hooks (gridProps (onValueChanged CONTAINS value v)) st)
        as (_ & -> & _).
    + intros e [= <-]. simpl. lia.
Qed.

(** X16.  In the view with the text field: every change of the value, to
    the empty value or to the value it had as well, makes the grid clear
    its cache, and the service is then given the property filter on
    [firstName] with that value as it is, not wrapped in an and-filter;
    calls of the header-filter setter do not change that. *)
Theorem single_property_filter_reaches_service value v st pf :
  reachable CONTAINS v st →
  let r := render true (gridProps (onValueChanged CONTAINS value v)) st in
  r.2 = [ClearCache]
  ∧ currentFilter r.1 = Some (firstNameContains CONTAINS value)
  ∧ currentFilter (setHeaderPropertyFilter pf r.1)
    = Some (firstNameContains CONTAINS value).
Proof.
  intros (Hst & Hren & Hid)%reachable_view r. subst r.
  set (props := gridProps (onValueChanged CONTAINS value v)).
  destruct (render_hooks props st) as (_ & _ & _ & _ & _ & Hdpf & Hcalls).
  assert (filterDepsChanged (rendered st) (internalFilter st) props
            (internalFilter (render true props st).1) = true) as Hrun.
  { rewrite Hren. unfold filterDepsChanged. simpl.
    destruct (filter v) as [e|] eqn:He; simpl; [|done].
    specialize (Hid e eq_refl).
    rewrite (bool_decide_eq_false_2 _) by lia. done. }
  rewrite Hrun in Hdpf, Hcalls.
  split_and!; [exact Hcalls| |].
  - unfold currentFilter. by rewrite Hdpf.
  - unfold currentFilter.
    by rewrite dataProviderFilter_setHeaderPropertyFilter, Hdpf.
Qed.

End SinglePropertyFilter.

Section FrontendIndex.
Import FrontendIndex.

Context {Other : Type} (noOther : Other).

(** X17.  Loading the entry point keeps the registrations other packages
    made on [window.Vaadin], in their order, and adds its own after them;
    it does so at every load, so loading it [n] times registers it [n]
    times; the other properties of an existing [window.Vaadin] stay. *)
Theorem load_appends_registration (n : nat) (wnd : option (Vaadin Other)) :
  registered (Nat.iter n (load noOther) wnd)
  = registered wnd ++ replicate n registration
  ∧ ∀ v, wnd = Some v →
      other <$> Nat.iter n (load noOther) wnd = Some (other v).
Proof.
  induction n as [|n [IHr IHo]]; simpl.
  - split; [by rewrite app_nil_r|]. by intros v ->.
  - split.
    + transitivity (registered (Nat.iter n (load noOther) wnd) ++ [registration]).
      { by destruct (Nat.iter n (load noOther) wnd) as [[[rs|] o]|]. }
      rewrite IHr, <-app_assoc. f_equal.
      change (replicate n registration ++ [registration]
              = replicate (S n) registration).
      by rewrite replicate_S_end.
    + intros v Hv. specialize (IHo v Hv).
      destruct (Nat.iter n (load noOther) wnd) as [[rs o]|]; [|done].
      simpl in *. done.
Qed.

End FrontendIndex.

End ViewFacts.

(** ** Instances of the further properties on the fixtures *)

Module FurtherExamples.
Import AutoGrid Fixtures MoreFixtures.
Import HeaderFilterArrayFacts EffectFacts ViewFacts.

Lemma reachable_twoFilters : reachable twoFilters.
Proof.
  do 2 apply reachable_setHeaderPropertyFilter.
  apply reachable_render, reachable_initial.
Qed.

(** Typing 'Jan' and then 'Jane' into the first-name field. *)
Lemma setHeaderPropertyFilter_last_call_wins_witness :
  headerChildren
    (setHeaderPropertyFilter (typed "firstName" "Jane")
       (setHeaderPropertyFilter (typed "firstName" "Jan") mounted))
  = [PropertyString (typed "firstName" "Jane")].
Proof.
  rewrite (setHeaderPropertyFilter_last_call_wins
             (typed "firstName" "Jan") (typed "firstName" "Jane") mounted
             eq_refl ltac:(discriminate)).
  reflexivity.
Defined.

(** Clearing the first-name field and typing into it again puts its filter
    behind the one on the last name. *)
Lemma setHeaderPropertyFilter_clear_then_set_witness :
  headerChildren
    (setHeaderPropertyFilter (typed "firstName" "Jo")
       (setHeaderPropertyFilter (typed "firstName" "") twoFilters))
  = [PropertyString (typed "lastName" "L"); PropertyString (typed "firstName" "Jo")].
Proof.
  rewrite (setHeaderPropertyFilter_clear_then_set
             (typed "firstName" "") (typed "firstName" "Jo") twoFilters
             reachable_twoFilters eq_refl eq_refl ltac:(discriminate)).
  reflexivity.
Defined.

(** Typing into the first-name field of the mounted grid makes the next
    render clear the cache. *)
Lemma render_after_setHeaderPropertyFilter_witness :
  (render true plainProps (setHeaderPropertyFilter firstNameFilter mounted)).2
  = [ClearCache].
Proof.
  destruct (render_after_setHeaderPropertyFilter firstNameFilter plainProps mounted
              HeaderFilterExamples.reachable_mounted eq_refl)
    as [Hchanged _].
  apply Hchanged. intros Heq. apply (f_equal nextId) in Heq. discriminate Heq.
Defined.

(** Re-rendering the grid with two header filters, now with
    [noHeaderFilters]. *)
Lemma noHeaderFilters_empties_the_filter_witness :
  currentFilter twoFilters
  = Some (AndFilter [PropertyString (typed "firstName" "Jan");
                     PropertyString (typed "lastName" "L")])
  ∧ currentFilter
      (render true headerFiltersOff (render true headerFiltersOff twoFilters).1).1
    = Some (AndFilter []).
Proof.
  split; [reflexivity|].
  apply (noHeaderFilters_empties_the_filter headerFiltersOff twoFilters
           reachable_twoFilters eq_refl eq_refl eq_refl).
Defined.

(** A header filter set while the experimental filter is passed. *)
Lemma experimentalFilter_overrides_header_filters_witness :
  currentFilter (setHeaderPropertyFilter firstNameFilter mountedWithFilter)
  = Some (PropertyString (typed "firstName" "Jan")).
Proof.
  destruct (experimentalFilter_overrides_header_filters withExperimentalFilter
              janFilter firstNameFilter mountedWithFilter
              ltac:(apply reachable_render, reachable_initial)
              eq_refl eq_refl) as [_ ->].
  reflexivity.
Defined.

(** 'Toggle header filters' clicked twice after 'Joh' was typed. *)
Lemma toggling_header_filters_off_and_on_witness :
  currentFilter viewGrid
  = Some (AndFilter [PropertyString (typed "firstName" "Joh")])
  ∧ currentFilter
      (render true
         (ReadOnlyGridWithHeaderFilters.gridProps
            (ReadOnlyGridWithHeaderFilters.toggleHeaderFilters
               (ReadOnlyGridWithHeaderFilters.toggleHeaderFilters
                  ReadOnlyGridWithHeaderFilters.initialView)))
         (render true
            (ReadOnlyGridWithHeaderFilters.gridProps
               (ReadOnlyGridWithHeaderFilters.toggleHeaderFilters
                  ReadOnlyGridWithHeaderFilters.initialView))
            (render true
               (ReadOnlyGridWithHeaderFilters.gridProps
                  (ReadOnlyGridWithHeaderFilters.toggleHeaderFilters
                     ReadOnlyGridWithHeaderFilters.initialView))
               viewGrid).1).1).1
    = Some (AndFilter []).
Proof.
  split; [reflexivity|].
  apply (toggling_header_filters_off_and_on
           ReadOnlyGridWithHeaderFilters.initialView viewGrid).
  - apply reachable_setHeaderPropertyFilter, reachable_render, reachable_initial.
  - reflexivity.
  - reflexivity.
Defined.

(** Typing 'Jan' into the text field of the freshly mounted view. *)
Lemma single_property_filter_reaches_service_witness :
  currentFilter
    (render true
       (ReadOnlyGridSinglePropertyFilter.gridProps
          (ReadOnlyGridSinglePropertyFilter.onValueChanged CONTAINS "Jan"
             ReadOnlyGridSinglePropertyFilter.initialView))
       (render true
          (ReadOnlyGridSinglePropertyFilter.gridProps
             ReadOnlyGridSinglePropertyFilter.initialView) initial).1).1
  = Some (PropertyString (typed "firstName" "Jan")).
Proof.
  apply (single_property_filter_reaches_service CONTAINS "Jan"
           ReadOnlyGridSinglePropertyFilter.initialView _ firstNameFilter
           (ReadOnlyGridSinglePropertyFilter.reachable_mount TestMatcher CONTAINS)).
Defined.

End FurtherExamples.
